(** * astro-blog: the R2 fetch helpers and the two Astro pages

    A shallow embedding of [src/lib/r2.ts], [src/pages/index.astro] and
    [src/pages/blog/[slug].astro], followed by the properties of the
    content-fetch and page-generation core.

    TypeScript types are erased at run time, so decoded JSON is kept as an
    untyped JavaScript value; a [Blog] or a [Category] is whatever object the
    upstream document decodes to. *)

From Stdlib Require Import String Ascii List Bool Arith NArith Lia DecimalString.
Import ListNotations.
Open Scope string_scope.
Set Warnings "-register-all".

(** ** JavaScript values, exceptions and the conversions the code relies on *)

Module JS.

(** Values reachable from [JSON.parse], plus [undefined], which a property
    read yields for an absent field.  Strings are byte strings.  The code
    never computes with a number: it can only test one for truth or turn it
    into text, so a number is kept as the text [ToString] gives for it
    ([0] and [-0] are both ["0"], the one falsy number JSON can produce).
    A decoded object lists each of its fields once. *)
Inductive value : Type :=
| VUndefined
| VNull
| VBool (b : bool)
| VNum (shown : string)
| VStr (s : string)
| VArr (elements : list value)
| VObj (fields : list (string * value)).

(** Exceptions.  Every [throw] of r2.ts builds a plain [Error] with a
    message; the runtime itself raises [TypeError] (a property read on
    [null]/[undefined], calling a method that is not there, a failed network
    request) and [SyntaxError] (a body that is not JSON). *)
Inductive exn : Type :=
| Error (message : string)
| TypeError
| SyntaxError.

(** A synchronous computation returns or throws; an [async] function turns
    the two into a fulfilled or a rejected promise. *)
Inductive result (A : Type) : Type :=
| Return (a : A)
| Throw (e : exn).
Arguments Return {A} a.
Arguments Throw {A} e.

Definition is_return {A} (r : result A) : bool :=
  match r with Return _ => true | Throw _ => false end.

Definition rbind {A B} (r : result A) (k : A -> result B) : result B :=
  match r with
  | Return a => k a
  | Throw e => Throw e
  end.

(** [arr.map(f)] for an [f] that may throw: stops at the first exception. *)
Fixpoint map_throwing {A B} (f : A -> result B) (l : list A) : result (list B) :=
  match l with
  | [] => Return []
  | x :: rest =>
      rbind (f x) (fun y => rbind (map_throwing f rest) (fun ys => Return (y :: ys)))
  end.

(** ToBoolean. *)
Definition truthy (v : value) : bool :=
  match v with
  | VUndefined | VNull => false
  | VBool b => b
  | VNum shown => negb (shown =? "0")
  | VStr s => negb (s =? "")
  | VArr _ | VObj _ => true
  end.

Definition Array_isArray (v : value) : bool :=
  match v with VArr _ => true | _ => false end.

Definition elements_of (v : value) : list value :=
  match v with VArr l => l | _ => [] end.

Definition show_N (n : N) : string := NilZero.string_of_uint (N.to_uint n).

(** ToString, as a template literal [`${v}`] applies it. *)
Fixpoint ToString (v : value) : string :=
  match v with
  | VUndefined => "undefined"
  | VNull => "null"
  | VBool true => "true"
  | VBool false => "false"
  | VNum shown => shown
  | VStr s => s
  | VArr l =>
      (fix join (l : list value) : string :=
         match l with
         | [] => ""
         | x :: rest =>
             let shown :=
               match x with
               | VUndefined | VNull => ""
               | _ => ToString x
               end in
             match rest with
             | [] => shown
             | _ :: _ => shown ++ "," ++ join rest
             end
         end) l
  | VObj _ => "[object Object]"
  end.

Fixpoint assoc (k : string) (fields : list (string * value)) : option value :=
  match fields with
  | [] => None
  | (k', v) :: rest => if k' =? k then Some v else assoc k rest
  end.

(** [v.k] for a field name [k] that no built-in prototype defines (all the
    names the code reads: items, slug, name, summary, body). *)
Definition get (v : value) (k : string) : result value :=
  match v with
  | VUndefined | VNull => Throw TypeError
  | VObj fields =>
      match assoc k fields with
      | Some x => Return x
      | None => Return VUndefined
      end
  | _ => Return VUndefined
  end.

(** [s.replace(/\/$/, '')]: without the [m] flag [$] only matches at the end
    of the input, so at most the last character goes. *)
Fixpoint replace_trailing_slash (s : string) : string :=
  match s with
  | EmptyString => EmptyString
  | String c rest =>
      match rest with
      | EmptyString => if (c =? "/")%char then EmptyString else s
      | String _ _ => String c (replace_trailing_slash rest)
      end
  end.

End JS.
Import JS.

(** ** The build-time world and asynchronous computations *)

Module Async.

(** What [fetch] settles with.  [ok] is the platform's reading of the status:
    true exactly for 200..299.  [body] is what [response.json()] decodes, or
    [None] when the body is not JSON. *)
Record response : Type := {
  status : N;
  statusText : string;
  body : option value
}.

Definition ok (r : response) : bool :=
  ((200 <=? status r) && (status r <=? 299))%N.

Inductive fetch_outcome : Type :=
| Responded (r : response)
| NetworkFailure.

(** The upstream store answers each address with one outcome, after some
    delay; nothing else about timing is known to the code. *)
Record reply : Type := {
  delay : nat;
  outcome : fetch_outcome
}.

(** Everything ambient that the code reads: the two [import.meta.env]
    entries and the network. *)
Record world : Type := {
  PUBLIC_R2_BASE_URL : option string;
  BASE_URL : string;
  upstream : string -> reply
}.

(** The state threaded through a run: the time at which the current
    continuation runs and the requests issued so far, oldest first. *)
Record state : Type := {
  clock : nat;
  requests : list string
}.

Definition start : state := {| clock := 0; requests := [] |}.

Definition M (A : Type) : Type := state -> result A * state.

Definition ret {A} (a : A) : M A := fun s => (Return a, s).
Definition throw {A} (e : exn) : M A := fun s => (Throw e, s).
Definition sync {A} (r : result A) : M A := fun s => (r, s).

Definition bind {A B} (m : M A) (k : A -> M B) : M B :=
  fun s =>
    match m s with
    | (Return a, s') => k a s'
    | (Throw e, s') => (Throw e, s')
    end.

Definition run {A} (m : M A) : result A := fst (m start).
Definition requested {A} (m : M A) : list string := requests (snd (m start)).

(** [await fetch(url)]: the request leaves at once, the continuation resumes
    when the reply is in. *)
Definition fetch (w : world) (url : string) : M response :=
  fun s =>
    let r := upstream w url in
    let s' := {| clock := clock s + delay r; requests := requests s ++ [url] |} in
    match outcome r with
    | Responded resp => (Return resp, s')
    | NetworkFailure => (Throw TypeError, s')
    end.

(** [await response.json()]. *)
Definition json (r : response) : M value :=
  match body r with
  | Some v => ret v
  | None => throw SyntaxError
  end.

(** Calling every async branch: each one starts at the same instant and
    issues its request before the next is called, so the request log grows
    in input order; each settles at its own time. *)
Fixpoint start_all {A} (branches : list (M A)) (t0 : nat) (log : list string)
  : list (result A * nat) * list string :=
  match branches with
  | [] => ([], log)
  | b :: rest =>
      let '(r, s1) := b {| clock := t0; requests := log |} in
      let '(rs, log') := start_all rest t0 (requests s1) in
      ((r, clock s1) :: rs, log')
  end.

(** The values of the settled branches in input order, if all fulfilled. *)
Fixpoint all_values {A} (rs : list (result A * nat)) : option (list A) :=
  match rs with
  | [] => Some []
  | (Return a, _) :: rest =>
      match all_values rest with
      | Some l => Some (a :: l)
      | None => None
      end
  | (Throw _, _) :: _ => None
  end.

(** The rejection that comes first in time (the leftmost among equals). *)
Fixpoint first_rejection {A} (rs : list (result A * nat)) : option (exn * nat) :=
  match rs with
  | [] => None
  | (Return _, _) :: rest => first_rejection rest
  | (Throw e, t) :: rest =>
      match first_rejection rest with
      | Some (e', t') => if (t' <? t)%nat then Some (e', t') else Some (e, t)
      | None => Some (e, t)
      end
  end.

Definition latest {A} (rs : list (result A * nat)) (t0 : nat) : nat :=
  fold_right (fun rt acc => Nat.max (snd rt) acc) t0 rs.

(** [await Promise.all(branches)]: fulfils with the values in input order
    once the last branch has fulfilled; rejects with the earliest rejection
    as soon as it happens.  Either way every request has been issued.  (The
    innermost [None] case does not arise: where a value is missing there is
    a rejection.) *)
Definition Promise_all {A} (branches : list (M A)) : M (list A) :=
  fun s =>
    let '(rs, log) := start_all branches (clock s) (requests s) in
    match all_values rs with
    | Some l => (Return l, {| clock := latest rs (clock s); requests := log |})
    | None =>
        match first_rejection rs with
        | Some (e, t) => (Throw e, {| clock := t; requests := log |})
        | None => (Throw TypeError, {| clock := clock s; requests := log |})
        end
    end.

End Async.
Import Async.

Notation "x <- m ;; k" := (bind m (fun x => k))
  (at level 61, m at next level, right associativity).

(** ** src/lib/r2.ts *)

Module R2.

Definition dquote : string := String (ascii_of_nat 34) EmptyString.

(** The three kinds of failure the helpers raise themselves, each a plain
    [Error] told apart by its message. *)
Definition ConfigurationError : exn :=
  Error "PUBLIC_R2_BASE_URL environment variable is not set".

Definition FetchError (what : string) (r : response) : exn :=
  Error ("Failed to fetch " ++ what ++ ": " ++ show_N (status r) ++ " " ++ statusText r).

Definition FormatError : exn := Error "Unexpected blog index format".

Section WithWorld.

Variable w : world.

(** [!baseUrl] holds for [undefined] and for the empty string. *)
Definition getR2BaseUrl : result string :=
  match PUBLIC_R2_BASE_URL w with
  | None => Throw ConfigurationError
  | Some baseUrl =>
      if baseUrl =? "" then Throw ConfigurationError
      else Return (replace_trailing_slash baseUrl)
  end.

Definition getR2Url (path : string) : result string :=
  rbind getR2BaseUrl (fun baseUrl => Return (baseUrl ++ "/" ++ path)).

(** The [catch] blocks of this file print the error with [console.error] and
    rethrow it unchanged; console output is not observed here, so a [try]
    body stands for the whole [try]/[catch]. *)
Definition fetchAllBlogs : M (list value) :=
  url <- sync (getR2Url "blogs/_index.json") ;;
  response <- fetch w url ;;
  if negb (ok response) then throw (FetchError "blog index" response)
  else
    data <- json response ;;
    if truthy data then
      items <- sync (get data "items") ;;
      if truthy items && Array_isArray items then ret (elements_of items)
      else throw FormatError
    else throw FormatError.

Definition fetchBlog (slug : value) : M value :=
  url <- sync (getR2Url ("blogs/" ++ ToString slug ++ ".json")) ;;
  response <- fetch w url ;;
  if negb (ok response)
  then throw (FetchError ("blog " ++ dquote ++ ToString slug ++ dquote) response)
  else
    blog <- json response ;;
    ret blog.

Definition fetchCategoryIndex : M value :=
  url <- sync (getR2Url "categories/_index.json") ;;
  response <- fetch w url ;;
  if negb (ok response) then throw (FetchError "category index" response)
  else
    slugs <- json response ;;
    ret slugs.

Definition fetchCategory (slug : value) : M value :=
  url <- sync (getR2Url ("categories/" ++ ToString slug ++ ".json")) ;;
  response <- fetch w url ;;
  if negb (ok response)
  then throw (FetchError ("category " ++ dquote ++ ToString slug ++ dquote) response)
  else
    category <- json response ;;
    ret category.

(** [slugs.map] exists only on an array; on anything else the call is a
    [TypeError]. *)
Definition fetchAllCategories : M (list value) :=
  slugs <- fetchCategoryIndex ;;
  match slugs with
  | VArr l =>
      categories <- Promise_all (map (fun slug => fetchCategory slug) l) ;;
      ret categories
  | _ => throw TypeError
  end.

End WithWorld.

End R2.
Import R2.

(** ** The pages: src/pages/index.astro and src/pages/blog/[slug].astro *)

Module Pages.

(** A rendered template.  [Expr v] is an interpolation [{e}] whose value is
    [v] (written out escaped); [SetHtml v] is the content given by
    [set:html={e}] (written out as it is).  White space between tags, the
    doctype and the style sheet import are left out. *)
Inductive html : Type :=
| Element (tag : string) (attrs : list (string * string)) (children : list html)
| Text (s : string)
| Expr (v : value)
| SetHtml (v : value).

Definition document_head (title : list html) : html :=
  Element "head" []
    [ Element "meta" [("charset", "UTF-8")] [];
      Element "meta" [("name", "viewport");
                      ("content", "width=device-width, initial-scale=1.0")] [];
      Element "title" [] title ].

Definition document (title : list html) (header main : list html) : html :=
  Element "html" [("lang", "en")]
    [ document_head title;
      Element "body" []
        [ Element "header" [] [ Element "div" [("class", "container")] header ];
          Element "main" [("class", "container")] main ] ].

Record static_path : Type := {
  params_slug : value;
  props_blog : value
}.

Section WithWorld.

Variable w : world.

(** *** index.astro *)

(** The body of [blogs.map(blog => ...)]. *)
Definition blog_card (base : string) (blog : value) : result html :=
  rbind (get blog "slug") (fun slug =>
  rbind (get blog "name") (fun name =>
  rbind (get blog "summary") (fun summary =>
  Return
    (Element "article" [("class", "blog-card")]
       [ Element "h2" []
           [ Element "a" [("href", base ++ "/blog/" ++ ToString slug)] [Expr name] ];
         Element "p" [("class", "summary")] [Expr summary];
         Element "a" [("href", base ++ "/blog/" ++ ToString slug);
                      ("class", "read-more")] [Text "Read more →"] ])))).

Definition no_posts : html := Element "p" [] [Text "No blog posts found."].

Definition index_astro : M html :=
  blogs <- fetchAllBlogs w ;;
  let base := BASE_URL w in
  cards <- sync (map_throwing (blog_card base) blogs) ;;
  ret (document [Text "Blog"]
         [ Element "h1" [] [Text "Blog"] ]
         (Element "div" [("class", "blog-grid")] cards
          :: (if (length blogs =? 0)%nat then [no_posts] else []))).

(** *** blog/[slug].astro *)

Definition getStaticPaths : M (list static_path) :=
  blogIndex <- fetchAllBlogs w ;;
  paths <- Promise_all
    (map (fun indexEntry =>
            slug <- sync (get indexEntry "slug") ;;
            fullBlog <- fetchBlog w slug ;;
            ret {| params_slug := slug; props_blog := fullBlog |})
         blogIndex) ;;
  ret paths.

(** The template, for the [blog] it receives through [Astro.props]. *)
Definition blog_slug_astro (base : string) (blog : value) : result html :=
  rbind (get blog "name") (fun name =>
  rbind (get blog "body") (fun body =>
  Return
    (document [Expr name; Text " - Blog"]
       [ Element "h1" [] [ Element "a" [("href", base)] [Text "Blog"] ] ]
       [ Element "article" [("class", "blog-detail")]
           [ Element "a" [("href", base); ("class", "back-link")]
               [Text "← Back to all posts"];
             Element "h1" [] [Expr name];
             Element "div" [("class", "body")] [SetHtml body] ] ]))).

(** What the page file yields for the framework: the entries of
    [getStaticPaths], each with the rendering of the template for its props.
    The framework's own part (checking the params, choosing the files it
    writes) is not code of this repository and is not modelled: where this
    computation fails there is nothing to write; where it succeeds it tells
    what the page of each entry shows. *)
Definition blog_slug_pages : M (list (static_path * html)) :=
  paths <- getStaticPaths ;;
  sync (map_throwing
          (fun p => rbind (blog_slug_astro (BASE_URL w) (props_blog p))
                      (fun page => Return (p, page)))
          paths).

End WithWorld.

(** *** Where a page lives *)






(** *** Reading a rendered page *)

Definition attr (k : string) (attrs : list (string * string)) : option string :=
  option_map snd (find (fun kv => fst kv =? k) attrs).

Definition has_tag (t : string) (h : html) : bool :=
  match h with Element tag _ _ => tag =? t | _ => false end.

Definition has_class (c : string) (h : html) : bool :=
  match h with
  | Element _ attrs _ =>
      match attr "class" attrs with Some c' => c' =? c | None => false end
  | _ => false
  end.

(** The nodes of a page that satisfy [p], in document order. *)
Fixpoint select (p : html -> bool) (h : html) : list html :=
  ((if p h then [h] else []) ++
   match h with
   | Element _ _ children =>
       (fix each (l : list html) : list html :=
          match l with
          | [] => []
          | c :: rest => select p c ++ each rest
          end) children
   | _ => []
   end)%list.

Definition is_card (h : html) : bool := has_tag "article" h && has_class "blog-card" h.

Definition is_no_posts (h : html) : bool :=
  match h with
  | Element tag [] [Text s] => (tag =? "p") && (s =? "No blog posts found.")
  | _ => false
  end.

(** The targets of the links of a page, in document order. *)
Definition hrefs (h : html) : list string :=
  flat_map (fun a => match a with
                     | Element _ attrs _ =>
                         match attr "href" attrs with Some u => [u] | None => [] end
                     | _ => []
                     end)
           (select (has_tag "a") h).

End Pages.
Import Pages.

(** ** Concrete upstream stores, used to run the code *)

Module Example.

Definition found (d : nat) (v : value) : reply :=
  {| delay := d;
     outcome := Responded {| status := 200; statusText := "OK"; body := Some v |} |}.

Definition not_found : reply :=
  {| delay := 1;
     outcome := Responded {| status := 404; statusText := "Not Found"; body := None |} |}.

(** A bucket holding the listed documents; every other address is a 404. *)
Definition bucket (docs : list (string * reply)) (url : string) : reply :=
  match find (fun d => fst d =? url) docs with
  | Some d => snd d
  | None => not_found
  end.

Definition summary_of (slug name : string) : value :=
  VObj [("slug", VStr slug); ("name", VStr name); ("summary", VStr ("About " ++ name))].

Definition post (slug name : string) : value :=
  VObj [("name", VStr name); ("slug", VStr slug);
        ("body", VStr ("<p>" ++ name ++ "</p>")); ("summary", VStr ("About " ++ name))].

Definition index_of (items : list value) : value :=
  VObj [("total_items", VNum (show_N (N.of_nat (length items)))); ("items", VArr items)].

Definition site (base : string) (docs : list (string * reply)) : world :=
  {| PUBLIC_R2_BASE_URL := Some base; BASE_URL := "/my-blog"; upstream := bucket docs |}.

(** Two posts; the second item document arrives before the first. *)
Definition two_posts : world :=
  site "https://cdn.example/content/497/"
    [ ("https://cdn.example/content/497/blogs/_index.json",
       found 2 (index_of [summary_of "hello" "Hello"; summary_of "world" "World"]));
      ("https://cdn.example/content/497/blogs/hello.json", found 5 (post "hello" "Hello"));
      ("https://cdn.example/content/497/blogs/world.json", found 3 (post "world" "World")) ].

(** The item document of the only post has no [body]. *)
Definition post_without_body : world :=
  site "https://cdn.example/content/497"
    [ ("https://cdn.example/content/497/blogs/_index.json",
       found 2 (index_of [summary_of "hello" "Hello"]));
      ("https://cdn.example/content/497/blogs/hello.json",
       found 1 (VObj [("name", VStr "Hello"); ("slug", VStr "hello");
                      ("summary", VStr "About Hello")])) ].

(** The document stored under [hello] carries another slug. *)
Definition post_with_other_slug : world :=
  site "https://cdn.example/content/497"
    [ ("https://cdn.example/content/497/blogs/_index.json",
       found 2 (index_of [summary_of "hello" "Hello"]));
      ("https://cdn.example/content/497/blogs/hello.json", found 1 (post "goodbye" "Hello")) ].

(** The index is there, one of the two item documents is not. *)
Definition one_post_missing : world :=
  site "https://cdn.example/content/497"
    [ ("https://cdn.example/content/497/blogs/_index.json",
       found 2 (index_of [summary_of "hello" "Hello"; summary_of "world" "World"]));
      ("https://cdn.example/content/497/blogs/hello.json", found 5 (post "hello" "Hello")) ].

(** Nothing is published. *)
Definition empty_bucket : world := site "https://cdn.example/content/497" [].

(** An index without posts. *)
Definition no_posts_yet : world :=
  site "https://cdn.example/content/497"
    [ ("https://cdn.example/content/497/blogs/_index.json", found 2 (index_of [])) ].

(** Two categories. *)
Definition two_categories : world :=
  site "https://cdn.example/content/497"
    [ ("https://cdn.example/content/497/categories/_index.json",
       found 1 (VArr [VStr "news"; VStr "notes"]));
      ("https://cdn.example/content/497/categories/news.json",
       found 4 (VObj [("name", VStr "News"); ("slug", VStr "news")]));
      ("https://cdn.example/content/497/categories/notes.json",
       found 2 (VObj [("name", VStr "Notes"); ("slug", VStr "notes")])) ].

Definition configured_as (base : option string) : world :=
  {| PUBLIC_R2_BASE_URL := base; BASE_URL := "/my-blog"; upstream := bucket [] |}.

End Example.

(** ** Predicates used to state the properties *)

Module Props.

Fixpoint ends_with_slash (s : string) : bool :=
  match s with
  | EmptyString => false
  | String c rest =>
      match rest with
      | EmptyString => (c =? "/")%char
      | String _ _ => ends_with_slash rest
      end
  end.

(** Does [s] contain two separators in a row? *)
Fixpoint doubled_separator (s : string) : bool :=
  match s with
  | EmptyString => false
  | String c rest =>
      match rest with
      | EmptyString => false
      | String c' _ => ((c =? "/")%char && (c' =? "/")%char) || doubled_separator rest
      end
  end.

Definition is_object (v : value) : bool :=
  match v with VObj _ => true | _ => false end.

(** The value of [v.k] when reading it does not throw. *)
Definition field (k : string) (v : value) : value :=
  match get v k with Return x => x | Throw _ => VUndefined end.

(** The result of a computation does not depend on when it runs nor on what
    was requested before. *)
Definition state_blind {A} (m : M A) : Prop := forall s, fst (m s) = run m.

(** What a single GET-and-decode yields in a world: the shared shape of the
    four one-document helpers. *)
Definition get_json (w : world) (path what : string) : result value :=
  rbind (getR2Url w path) (fun url =>
    match outcome (upstream w url) with
    | NetworkFailure => Throw TypeError
    | Responded r =>
        if ok r then
          match body r with Some v => Return v | None => Throw SyntaxError end
        else Throw (FetchError what r)
    end).

(** The item document of an index entry can be fetched and is an object. *)
Definition item_available (w : world) (indexEntry : value) : bool :=
  match get indexEntry "slug" with
  | Return slug =>
      match run (fetchBlog w slug) with
      | Return blog => is_object blog
      | Throw _ => false
      end
  | Throw _ => false
  end.

(** What the branch of [getStaticPaths] for one index entry settles with. *)
Definition static_path_of (w : world) (indexEntry : value) : result static_path :=
  rbind (get indexEntry "slug") (fun slug =>
  rbind (run (fetchBlog w slug)) (fun fullBlog =>
  Return {| params_slug := slug; props_blog := fullBlog |})).

Definition item_fails (w : world) (indexEntry : value) : bool :=
  match get indexEntry "slug" with
  | Return slug => negb (is_return (run (fetchBlog w slug)))
  | Throw _ => true
  end.

(** A detail page shows a record: its name in the title and in the heading
    of the article, its body as the content of the body block. *)
Definition shows_record (blog : value) (page : html) : Prop :=
  select (has_tag "title") page
    = [Element "title" [] [Expr (field "name" blog); Text " - Blog"]] /\
  In (Element "h1" [] [Expr (field "name" blog)]) (select (has_tag "h1") page) /\
  select (has_class "body") page
    = [Element "div" [("class", "body")] [SetHtml (field "body" blog)]].

End Props.
Import Props.

(** ** The category helper of the tutorial

    The tutorial's section on categories proposes its own
    [fetchAllCategories] for [src/lib/r2.ts], different from the one the
    file has: one request, no status check, the [items] field of whatever
    the body decodes to. *)

Module Tutorial.

Definition fetchAllCategories (w : world) : M value :=
  url <- sync (getR2Url w "categories/_index.json") ;;
  response <- fetch w url ;;
  data <- json response ;;
  items <- sync (get data "items") ;;
  ret items.

End Tutorial.

(** ** Further upstream stores *)

Module Scenario.

Definition answer (code : N) (text : string) (v : option value) : reply :=
  {| delay := 1;
     outcome := Responded {| status := code; statusText := text; body := v |} |}.


(** The item document of the only post is the JSON value [null]. *)
Definition null_post : world :=
  Example.site "https://cdn.example/content/497"
    [ ("https://cdn.example/content/497/blogs/_index.json",
       Example.found 2 (Example.index_of [Example.summary_of "hello" "Hello"]));
      ("https://cdn.example/content/497/blogs/hello.json", Example.found 1 VNull) ].

(** The only index entry has no [slug]. *)
Definition entry_without_slug : world :=
  Example.site "https://cdn.example/content/497"
    [ ("https://cdn.example/content/497/blogs/_index.json",
       Example.found 2 (Example.index_of
                          [VObj [("name", VStr "Hello"); ("summary", VStr "About Hello")]])) ].


(** The category index is answered with status 404 and a JSON body. *)
Definition categories_not_found_with_body : world :=
  Example.site "https://cdn.example/content/497"
    [ ("https://cdn.example/content/497/categories/_index.json",
       answer 404 "Not Found" (Some (VObj [("items", VArr [VStr "stale"])]))) ].

(** The index answers with a page that is not JSON; the network is down for
    one item. *)
Definition broken_replies : world :=
  Example.site "https://cdn.example/content/497"
    [ ("https://cdn.example/content/497/blogs/_index.json", answer 200 "OK" None);
      ("https://cdn.example/content/497/blogs/hello.json",
       {| delay := 1; outcome := NetworkFailure |});
      ("https://cdn.example/content/497/blogs/world.json",
       answer 503 "Service Unavailable" None) ].


End Scenario.

(** * Properties *)

(** ** Strings *)

Lemma replace_trailing_slash_keeps (s : string) :
  ends_with_slash s = false -> replace_trailing_slash s = s.
Proof.
  induction s as [|c [|c' rest] IH]; simpl; intro H.
  - reflexivity.
  - now rewrite H.
  - f_equal. apply IH. exact H.
Qed.

Lemma replace_trailing_slash_drops (s : string) :
  replace_trailing_slash (s ++ "/") = s.
Proof.
  induction s as [|c rest IH]; [reflexivity|].
  change (String c rest ++ "/") with (String c (rest ++ "/")).
  destruct rest as [|c' rest']; [reflexivity|].
  change (replace_trailing_slash (String c (String c' rest' ++ "/")))
    with (String c (replace_trailing_slash (String c' rest' ++ "/"))).
  now rewrite IH.
Qed.

Lemma append_slash_nonempty (s : string) : (s ++ "/" =? "") = false.
Proof. destruct s; reflexivity. Qed.

Lemma replace_trailing_slash_split (s : string) :
  s = replace_trailing_slash s ++ (if ends_with_slash s then "/" else "").
Proof.
  induction s as [|c [|c' rest] IH].
  - reflexivity.
  - simpl. destruct (c =? "/")%char eqn:E; [|reflexivity].
    apply Ascii.eqb_eq in E. now subst.
  - change (String c (String c' rest)
            = String c (replace_trailing_slash (String c' rest)
                          ++ (if ends_with_slash (String c' rest) then "/" else ""))).
    f_equal. exact IH.
Qed.

Lemma append_assoc_s (a b c : string) : (a ++ b) ++ c = a ++ (b ++ c).
Proof. induction a as [|x a IH]; simpl; [reflexivity|now rewrite IH]. Qed.

Lemma append_cancel_l (a x y : string) : a ++ x = a ++ y -> x = y.
Proof. induction a as [|c a IH]; simpl; intro H; [assumption|]. inversion H. auto. Qed.

(** ** The monad *)

Lemma fst_bind {A B} (m : M A) (k : A -> M B) (s : state) :
  fst (bind m k s) =
  match m s with
  | (Return a, s') => fst (k a s')
  | (Throw e, _) => Throw e
  end.
Proof. unfold bind. destruct (m s) as [[a|e] s']; reflexivity. Qed.

(** ** Promise.all *)

Lemma start_all_results {A} (bs : list (M A)) :
  Forall state_blind bs ->
  forall t0 log, map fst (fst (start_all bs t0 log)) = map run bs.
Proof.
  induction 1 as [|b bs Hb _ IH]; intros t0 log; simpl; [reflexivity|].
  specialize (Hb {| clock := t0; requests := log |}).
  destruct (b _) as [r s1]. simpl in Hb.
  specialize (IH t0 (requests s1)).
  destruct (start_all bs t0 (requests s1)) as [rs log'].
  simpl in *. now rewrite Hb, IH.
Qed.

Lemma all_values_some {A} (rs : list (result A * nat)) (vs : list A) :
  all_values rs = Some vs <-> map fst rs = map Return vs.
Proof.
  revert vs. induction rs as [|[[a|e] t] rs IH]; intros vs; simpl.
  - split; intro H.
    + now inversion H.
    + destruct vs; [reflexivity|discriminate].
  - destruct (all_values rs) as [l|] eqn:E; split; intro H.
    + inversion H; subst. simpl. f_equal. now apply IH.
    + destruct vs as [|v vs]; [discriminate|]. simpl in H. inversion H; subst.
      f_equal. f_equal. apply IH in H2. congruence.
    + discriminate.
    + destruct vs as [|v vs]; [discriminate|]. simpl in H. inversion H; subst.
      apply IH in H2. discriminate.
  - split; intro H; [discriminate|].
    destruct vs; discriminate.
Qed.

Lemma first_rejection_in {A} (rs : list (result A * nat)) (e : exn) (t : nat) :
  first_rejection rs = Some (e, t) -> In (Throw e) (map fst rs).
Proof.
  revert e t. induction rs as [|[[a|e0] t0] rs IH]; intros e t; simpl; intro H.
  - discriminate.
  - right. eapply IH; eauto.
  - destruct (first_rejection rs) as [[e' t']|].
    + destruct (t' <? t0)%nat; inversion H; subst; [right; eapply IH|left]; eauto.
    + inversion H; subst. now left.
Qed.

Lemma all_values_none {A} (rs : list (result A * nat)) :
  all_values rs = None -> exists e t, first_rejection rs = Some (e, t).
Proof.
  induction rs as [|[[a|e0] t0] rs IH]; simpl; intro H.
  - discriminate.
  - destruct (all_values rs); [discriminate|]. now apply IH.
  - destruct (first_rejection rs) as [[e' t']|]; [destruct (t' <? t0)%nat|]; eauto.
Qed.

Lemma Promise_all_result {A} (bs : list (M A)) (s : state) :
  Forall state_blind bs ->
  (forall vs, fst (Promise_all bs s) = Return vs <-> map run bs = map Return vs) /\
  (forall e, fst (Promise_all bs s) = Throw e -> In (Throw e) (map run bs)).
Proof.
  intro Hb. unfold Promise_all.
  pose proof (start_all_results bs Hb (clock s) (requests s)) as Hrs.
  destruct (start_all bs (clock s) (requests s)) as [rs log]. simpl in Hrs.
  destruct (all_values rs) as [l|] eqn:E.
  - apply all_values_some in E. split.
    + intros vs. simpl. split; intro H.
      * inversion H; subst. congruence.
      * f_equal. rewrite <- Hrs, E in H.
        clear - H. revert vs H. induction l; intros [|v vs] H; try discriminate; auto.
        simpl in H. inversion H. f_equal. auto.
    + intros e H. discriminate.
  - destruct (all_values_none rs E) as (e & t & F). rewrite F. split.
    + intros vs. simpl. split; intro H; [discriminate|].
      rewrite <- Hrs in H. apply all_values_some in H. congruence.
    + intros e' H. simpl in H. inversion H; subst.
      rewrite <- Hrs. eapply first_rejection_in; eauto.
Qed.

(** ** The one-document helpers *)

Ltac step_fetch :=
  unfold bind, sync, fetch, json, ret, throw, get_json, rbind; simpl;
  repeat match goal with
         | |- context [match getR2Url ?w ?p with _ => _ end] =>
             destruct (getR2Url w p); simpl
         | |- context [match outcome ?r with _ => _ end] =>
             destruct (outcome r); simpl
         | |- context [if ok ?r then _ else _] => destruct (ok r); simpl
         | |- context [match body ?r with _ => _ end] => destruct (body r); simpl
         end.

Lemma fetchBlog_result (w : world) (slug : value) (s : state) :
  fst (fetchBlog w slug s) =
  get_json w ("blogs/" ++ ToString slug ++ ".json")
             ("blog " ++ dquote ++ ToString slug ++ dquote).
Proof. unfold fetchBlog. step_fetch; reflexivity. Qed.

Lemma fetchCategory_result (w : world) (slug : value) (s : state) :
  fst (fetchCategory w slug s) =
  get_json w ("categories/" ++ ToString slug ++ ".json")
             ("category " ++ dquote ++ ToString slug ++ dquote).
Proof. unfold fetchCategory. step_fetch; reflexivity. Qed.

Lemma fetchCategoryIndex_result (w : world) (s : state) :
  fst (fetchCategoryIndex w s) = get_json w "categories/_index.json" "category index".
Proof. unfold fetchCategoryIndex. step_fetch; reflexivity. Qed.

Lemma fetchAllBlogs_result (w : world) (s : state) :
  fst (fetchAllBlogs w s) =
  rbind (get_json w "blogs/_index.json" "blog index") (fun data =>
    if truthy data then
      rbind (get data "items") (fun items =>
        if truthy items && Array_isArray items then Return (elements_of items)
        else Throw FormatError)
    else Throw FormatError).
Proof.
  unfold fetchAllBlogs. step_fetch; try reflexivity.
  destruct (truthy v); simpl; [|reflexivity].
  destruct (get v "items") as [items|e]; simpl; [|reflexivity].
  destruct (truthy items && Array_isArray items); reflexivity.
Qed.

Lemma fetchBlog_blind (w : world) (slug : value) : state_blind (fetchBlog w slug).
Proof. intro s. unfold run. now rewrite !fetchBlog_result. Qed.

Lemma fetchCategory_blind (w : world) (slug : value) : state_blind (fetchCategory w slug).
Proof. intro s. unfold run. now rewrite !fetchCategory_result. Qed.

(** Without a base address no helper gets as far as the network. *)
Lemma getR2Url_unconfigured (w : world) (path : string) :
  PUBLIC_R2_BASE_URL w = None \/ PUBLIC_R2_BASE_URL w = Some "" ->
  getR2Url w path = Throw ConfigurationError.
Proof.
  unfold getR2Url, getR2BaseUrl. intros [H|H]; rewrite H; reflexivity.
Qed.

Lemma getR2Url_configured (w : world) (base path : string) :
  PUBLIC_R2_BASE_URL w = Some base -> (base =? "") = false ->
  getR2Url w path = Return (replace_trailing_slash base ++ "/" ++ path).
Proof.
  unfold getR2Url, getR2BaseUrl. intros H E. rewrite H, E. reflexivity.
Qed.

(** The index decodes to an array of items exactly for an object whose
    [items] field is an array. *)
Lemma index_shape (data : value) :
  (if truthy data then
     rbind (get data "items") (fun items =>
       if truthy items && Array_isArray items then Return (elements_of items)
       else Throw FormatError)
   else Throw FormatError) =
  match data with
  | VObj fields =>
      match assoc "items" fields with
      | Some (VArr items) => Return items
      | _ => Throw FormatError
      end
  | _ => Throw FormatError
  end.
Proof.
  destruct data as [| |b|shown|str|l|fields]; simpl; try reflexivity.
  - destruct b; reflexivity.
  - destruct (negb (shown =? "0")); reflexivity.
  - destruct (negb (str =? "")); reflexivity.
  - destruct (assoc "items" fields) as [[| |b|z|str|l|fs]|]; simpl; try reflexivity.
    + destruct b; reflexivity.
    + destruct (negb (z =? "0")); reflexivity.
    + destruct (negb (str =? "")); reflexivity.
Qed.

Lemma get_json_ok (w : world) (path what url : string) (resp : response) (v : value) :
  getR2Url w path = Return url ->
  outcome (upstream w url) = Responded resp ->
  ok resp = true -> body resp = Some v ->
  get_json w path what = Return v.
Proof.
  intros Hu Ho Hk Hb. unfold get_json. rewrite Hu. simpl. now rewrite Ho, Hk, Hb.
Qed.

Lemma get_json_not_ok (w : world) (path what url : string) (resp : response) :
  getR2Url w path = Return url ->
  outcome (upstream w url) = Responded resp ->
  ok resp = false ->
  get_json w path what = Throw (FetchError what resp).
Proof.
  intros Hu Ho Hk. unfold get_json. rewrite Hu. simpl. now rewrite Ho, Hk.
Qed.

(** ** Base-address handling (getR2BaseUrl, getR2Url) *)

(** C2, as stated, fails: a base entered with two trailing separators keeps
    one of them, the address gets a doubled separator at the join, and it
    differs from the address obtained from the base with one separator
    less. *)
Lemma getR2Url_two_trailing_slashes :
  getR2Url (Example.configured_as (Some "cdn//")) "blogs/_index.json"
    = Return "cdn//blogs/_index.json"
  /\ doubled_separator "cdn//blogs/_index.json" = true
  /\ ends_with_slash "cdn//" = true
  /\ getR2Url (Example.configured_as (Some "cdn/")) "blogs/_index.json"
    = Return "cdn/blogs/_index.json"
  /\ getR2Url (Example.configured_as (Some "cdn//")) "blogs/_index.json"
     <> getR2Url (Example.configured_as (Some "cdn/")) "blogs/_index.json".
Proof. repeat split; try reflexivity. discriminate. Qed.

(** C2, amended: getR2BaseUrl removes one trailing separator when there is
    one, and only that one: whatever [base] is, the base [base/] resolves to
    [base], one separator and the path.  A non-empty base that does not end
    in a separator is used as it is, so that base and the same base followed
    by one separator resolve to the same address for every relative path. *)
Theorem getR2Url_one_trailing_slash (w w' : world) (base path : string) :
  PUBLIC_R2_BASE_URL w' = Some (base ++ "/") ->
  getR2Url w' path = Return (base ++ "/" ++ path) /\
  (PUBLIC_R2_BASE_URL w = Some base ->
   (base =? "") = false ->
   ends_with_slash base = false ->
   getR2Url w path = Return (base ++ "/" ++ path) /\
   getR2Url w' path = getR2Url w path).
Proof.
  intros Hw'.
  assert (H2 : getR2Url w' path = Return (base ++ "/" ++ path)).
  { rewrite (getR2Url_configured w' (base ++ "/") path Hw' (append_slash_nonempty base)).
    now rewrite replace_trailing_slash_drops. }
  split; [exact H2|]. intros Hw Hne Hend.
  assert (H1 : getR2Url w path = Return (base ++ "/" ++ path)).
  { rewrite (getR2Url_configured w base path Hw Hne).
    now rewrite replace_trailing_slash_keeps. }
  split; congruence.
Qed.

Lemma getR2Url_one_trailing_slash_witness :
  getR2Url (Example.configured_as (Some "cdn//")) "blogs/_index.json"
    = Return "cdn//blogs/_index.json" /\
  getR2Url (Example.configured_as (Some "https://cdn.example/content/497/"))
           "blogs/_index.json"
  = getR2Url (Example.configured_as (Some "https://cdn.example/content/497"))
             "blogs/_index.json".
Proof.
  split.
  - apply (getR2Url_one_trailing_slash
             (Example.configured_as None) (Example.configured_as (Some "cdn//"))
             "cdn/" "blogs/_index.json" eq_refl).
  - apply (getR2Url_one_trailing_slash
             (Example.configured_as (Some "https://cdn.example/content/497"))
             (Example.configured_as (Some "https://cdn.example/content/497/"))
             "https://cdn.example/content/497" "blogs/_index.json" eq_refl);
      reflexivity.
Defined.

(** ** Missing configuration *)

(** C9: with the base address absent or empty, each fetch operation (and the
    two pages' front matter, which call them) fails with the configuration
    error and leaves the state as it found it: no request has been issued. *)
Theorem unconfigured_fails_before_any_request (w : world) (s : state) :
  PUBLIC_R2_BASE_URL w = None \/ PUBLIC_R2_BASE_URL w = Some "" ->
  fetchAllBlogs w s = (Throw ConfigurationError, s) /\
  (forall slug, fetchBlog w slug s = (Throw ConfigurationError, s)) /\
  fetchCategoryIndex w s = (Throw ConfigurationError, s) /\
  (forall slug, fetchCategory w slug s = (Throw ConfigurationError, s)) /\
  fetchAllCategories w s = (Throw ConfigurationError, s) /\
  index_astro w s = (Throw ConfigurationError, s) /\
  getStaticPaths w s = (Throw ConfigurationError, s).
Proof.
  intro H.
  assert (U : forall path, getR2Url w path = Throw ConfigurationError)
    by (intro; now apply getR2Url_unconfigured).
  assert (B : fetchAllBlogs w s = (Throw ConfigurationError, s))
    by (unfold fetchAllBlogs, bind, sync; now rewrite U).
  assert (C : fetchCategoryIndex w s = (Throw ConfigurationError, s))
    by (unfold fetchCategoryIndex, bind, sync; now rewrite U).
  repeat split; auto.
  - intro slug. unfold fetchBlog, bind, sync. now rewrite U.
  - intro slug. unfold fetchCategory, bind, sync. now rewrite U.
  - unfold fetchAllCategories, bind. now rewrite C.
  - unfold index_astro, bind. now rewrite B.
  - unfold getStaticPaths, bind. now rewrite B.
Qed.

Lemma unconfigured_fails_before_any_request_witness :
  requested (fetchAllBlogs (Example.configured_as (Some ""))) = [] /\
  run (fetchBlog (Example.configured_as (Some "")) (VStr "hello"))
    = Throw ConfigurationError.
Proof.
  destruct (unconfigured_fails_before_any_request
              (Example.configured_as (Some "")) start (or_intror eq_refl))
    as (B & F & _).
  unfold requested, run. rewrite B, (F (VStr "hello")). split; reflexivity.
Defined.

(** ** The index (fetchAllBlogs) *)

(** C7: given a successful response with a decodable body, fetchAllBlogs
    fails with the format error exactly when the body is not an object with
    an array-valued [items] field; otherwise it returns that array itself,
    whatever [total_items] holds. *)
Theorem fetchAllBlogs_format (w : world) (url : string) (resp : response) (data : value) :
  getR2Url w "blogs/_index.json" = Return url ->
  outcome (upstream w url) = Responded resp ->
  ok resp = true ->
  body resp = Some data ->
  (run (fetchAllBlogs w) = Throw FormatError <->
   ~ exists fields items, data = VObj fields /\ assoc "items" fields = Some (VArr items)) /\
  (forall fields items,
      data = VObj fields -> assoc "items" fields = Some (VArr items) ->
      run (fetchAllBlogs w) = Return items) /\
  (forall total items,
      data = VObj [("total_items", total); ("items", VArr items)] ->
      run (fetchAllBlogs w) = Return items).
Proof.
  intros Hu Ho Hk Hb.
  assert (R : run (fetchAllBlogs w) =
              match data with
              | VObj fields =>
                  match assoc "items" fields with
                  | Some (VArr items) => Return items
                  | _ => Throw FormatError
                  end
              | _ => Throw FormatError
              end).
  { unfold run. rewrite fetchAllBlogs_result.
    rewrite (get_json_ok w _ _ url resp data Hu Ho Hk Hb). simpl.
    apply index_shape. }
  split; [|split].
  - rewrite R. split.
    + intros H (fields & items & -> & E). rewrite E in H. discriminate.
    + intro H. destruct data as [| | | | | |fields]; try reflexivity.
      destruct (assoc "items" fields) as [[| | | | |items|]|] eqn:E; try reflexivity.
      exfalso. apply H. eauto.
  - intros fields items -> E. rewrite R, E. reflexivity.
  - intros total items ->. rewrite R. reflexivity.
Qed.

Lemma fetchAllBlogs_format_witness :
  run (fetchAllBlogs Example.no_posts_yet) = Return [].
Proof.
  destruct (fetchAllBlogs_format Example.no_posts_yet
              "https://cdn.example/content/497/blogs/_index.json"
              {| status := 200; statusText := "OK"; body := Some (Example.index_of []) |}
              (Example.index_of [])
              eq_refl eq_refl eq_refl eq_refl) as (_ & _ & H).
  apply (H (VNum "0") []). reflexivity.
Defined.

(** ** getStaticPaths *)

Lemma getStaticPaths_branch (w : world) (indexEntry : value) (s : state) :
  fst ((slug <- sync (get indexEntry "slug") ;;
        fullBlog <- fetchBlog w slug ;;
        ret {| params_slug := slug; props_blog := fullBlog |}) s)
  = static_path_of w indexEntry.
Proof.
  unfold static_path_of. rewrite fst_bind. unfold sync at 1.
  destruct (get indexEntry "slug") as [slug|e]; simpl; [|reflexivity].
  rewrite fst_bind. pose proof (fetchBlog_blind w slug s) as H.
  destruct (fetchBlog w slug s) as [[b|e] s']; simpl in H; rewrite <- H; reflexivity.
Qed.

Lemma getStaticPaths_branches (w : world) (blogIndex : list value) :
  let branches :=
    map (fun indexEntry =>
           slug <- sync (get indexEntry "slug") ;;
           fullBlog <- fetchBlog w slug ;;
           ret {| params_slug := slug; props_blog := fullBlog |}) blogIndex in
  Forall state_blind branches /\
  map run branches = map (static_path_of w) blogIndex.
Proof.
  simpl. split.
  - apply Forall_forall. intros b Hb. apply in_map_iff in Hb as (e & <- & _).
    intro s. unfold run. now rewrite !getStaticPaths_branch.
  - rewrite map_map. apply map_ext. intro e. unfold run. apply getStaticPaths_branch.
Qed.

Lemma getStaticPaths_no_index (w : world) (e : exn) :
  run (fetchAllBlogs w) = Throw e -> run (getStaticPaths w) = Throw e.
Proof.
  unfold run, getStaticPaths. rewrite fst_bind.
  destruct (fetchAllBlogs w start) as [[idx|e'] s']; simpl; congruence.
Qed.

Lemma getStaticPaths_after_index (w : world) (blogIndex : list value) :
  run (fetchAllBlogs w) = Return blogIndex ->
  (forall paths, run (getStaticPaths w) = Return paths <->
                 map (static_path_of w) blogIndex = map Return paths) /\
  (forall e, run (getStaticPaths w) = Throw e ->
             In (Throw e) (map (static_path_of w) blogIndex)).
Proof.
  unfold run at 1. intro Hidx.
  unfold run, getStaticPaths. rewrite fst_bind.
  destruct (fetchAllBlogs w start) as [[idx|e'] s']; simpl in Hidx; [|discriminate].
  inversion Hidx; subst idx. clear Hidx.
  rewrite fst_bind.
  destruct (getStaticPaths_branches w blogIndex) as [Hblind Hrun]. simpl in Hblind, Hrun.
  destruct (Promise_all_result _ s' Hblind) as [HR HT].
  rewrite Hrun in HR, HT.
  destruct (Promise_all _ s') as [[vs|e] s'']; simpl in *; split.
  - intro paths. split; intro H.
    + inversion H; subst. now apply HR.
    + apply HR in H. exact H.
  - intros e H. discriminate.
  - intro paths. split; intro H; [discriminate|]. apply HR in H. discriminate.
  - intros e0 H. apply HT. exact H.
Qed.

Lemma index_astro_no_index (w : world) (e : exn) :
  run (fetchAllBlogs w) = Throw e -> run (index_astro w) = Throw e.
Proof.
  unfold run, index_astro. rewrite fst_bind.
  destruct (fetchAllBlogs w start) as [[idx|e'] s']; simpl; congruence.
Qed.

Lemma blog_slug_pages_result (w : world) :
  run (blog_slug_pages w) =
  rbind (run (getStaticPaths w))
    (map_throwing
       (fun p => rbind (blog_slug_astro (BASE_URL w) (props_blog p))
                   (fun page => Return (p, page)))).
Proof.
  unfold run, blog_slug_pages. rewrite fst_bind.
  destruct (getStaticPaths w start) as [[paths|e] s']; reflexivity.
Qed.

Lemma static_path_of_fails (w : world) (indexEntry : value) :
  item_fails w indexEntry = true -> exists e, static_path_of w indexEntry = Throw e.
Proof.
  unfold item_fails, static_path_of.
  destruct (get indexEntry "slug") as [slug|e]; simpl; [|eauto].
  destruct (run (fetchBlog w slug)) as [b|e]; simpl; [discriminate|eauto].
Qed.

Lemma Throw_not_in_Returns {A} (e : exn) (l : list A) : ~ In (Throw e) (map Return l).
Proof. induction l as [|a l IH]; simpl; [tauto|]. intros [H|H]; [discriminate|auto]. Qed.

(** ** Failure of a fetch *)

(** C6: whatever makes the index fetch fail makes both pages fail with the
    same error, so no page comes out; a 404 on the index endpoint is
    reported as the fetch error naming status 404; and when the item fetch
    of any one index entry fails, the detail-page step as a whole fails, with
    no page list at all. *)
Theorem any_failed_fetch_aborts (w : world) :
  (forall e, run (fetchAllBlogs w) = Throw e ->
     run (index_astro w) = Throw e /\
     run (getStaticPaths w) = Throw e /\
     run (blog_slug_pages w) = Throw e) /\
  (forall url resp,
     getR2Url w "blogs/_index.json" = Return url ->
     outcome (upstream w url) = Responded resp ->
     status resp = 404%N ->
     run (fetchAllBlogs w) = Throw (FetchError "blog index" resp) /\
     FetchError "blog index" resp
       = Error ("Failed to fetch blog index: 404 " ++ statusText resp)) /\
  (forall blogIndex,
     run (fetchAllBlogs w) = Return blogIndex ->
     existsb (item_fails w) blogIndex = true ->
     exists e, run (getStaticPaths w) = Throw e /\ run (blog_slug_pages w) = Throw e).
Proof.
  split; [|split].
  - intros e H. split; [|split].
    + now apply index_astro_no_index.
    + now apply getStaticPaths_no_index.
    + rewrite blog_slug_pages_result, (getStaticPaths_no_index w e H). reflexivity.
  - intros url resp Hu Ho Hs. split.
    + unfold run. rewrite fetchAllBlogs_result.
      rewrite (get_json_not_ok w _ _ url resp Hu Ho); [reflexivity|].
      unfold ok. rewrite Hs. reflexivity.
    + unfold FetchError. rewrite Hs. reflexivity.
  - intros blogIndex Hidx Hfail.
    apply existsb_exists in Hfail as (entry & Hin & Hf).
    apply static_path_of_fails in Hf as (e0 & He0).
    destruct (getStaticPaths_after_index w blogIndex Hidx) as [HR _].
    destruct (run (getStaticPaths w)) as [paths|e] eqn:E.
    + exfalso. apply (Throw_not_in_Returns e0 paths).
      rewrite <- (proj1 (HR paths) eq_refl), <- He0. now apply in_map.
    + exists e. split; [reflexivity|].
      rewrite blog_slug_pages_result, E. reflexivity.
Qed.

Lemma any_failed_fetch_aborts_witness :
  run (index_astro Example.empty_bucket)
    = Throw (Error "Failed to fetch blog index: 404 Not Found") /\
  run (blog_slug_pages Example.empty_bucket)
    = Throw (Error "Failed to fetch blog index: 404 Not Found") /\
  exists e, run (blog_slug_pages Example.one_post_missing) = Throw e.
Proof.
  destruct (any_failed_fetch_aborts Example.empty_bucket) as (Hall & H404 & _).
  destruct (H404 "https://cdn.example/content/497/blogs/_index.json"
              {| status := 404; statusText := "Not Found"; body := None |}
              eq_refl eq_refl eq_refl) as [Hf Hmsg].
  rewrite Hmsg in Hf. simpl in Hf.
  destruct (Hall _ Hf) as (Hi & _ & Hp).
  split; [exact Hi|]. split; [exact Hp|].
  destruct (any_failed_fetch_aborts Example.one_post_missing) as (_ & _ & Hitem).
  destruct (Hitem _ eq_refl eq_refl) as (e & _ & He).
  exists e. exact He.
Defined.

(** ** Reading rendered pages *)

Lemma select_each (p : html -> bool) (children : list html) :
  (fix each (l : list html) : list html :=
     match l with
     | [] => []
     | c :: rest => (select p c ++ each rest)%list
     end) children = flat_map (select p) children.
Proof. induction children as [|c rest IH]; simpl; [reflexivity|]. now rewrite IH. Qed.

Lemma select_Element (p : html -> bool) (t : string) (a : list (string * string))
      (children : list html) :
  select p (Element t a children) =
  ((if p (Element t a children) then [Element t a children] else [])
     ++ flat_map (select p) children)%list.
Proof. simpl. now rewrite select_each. Qed.

Lemma get_slug_then_any (v : value) (k : string) :
  is_return (get v "slug") = true -> get v k = Return (field k v).
Proof.
  unfold field. destruct v; simpl; try discriminate; try reflexivity.
  intros _. destruct (assoc k fields); reflexivity.
Qed.

Lemma get_object (v : value) (k : string) :
  is_object v = true -> get v k = Return (field k v).
Proof.
  unfold field. destruct v; simpl; try discriminate.
  intros _. destruct (assoc k fields); reflexivity.
Qed.

(** What the detail template shows for an object. *)
Lemma blog_slug_astro_shows (base : string) (blog : value) :
  is_object blog = true ->
  exists page,
    blog_slug_astro base blog = Return page /\
    select (has_tag "title") page
      = [Element "title" [] [Expr (field "name" blog); Text " - Blog"]] /\
    select (has_tag "h1") page
      = [Element "h1" [] [Element "a" [("href", base)] [Text "Blog"]];
         Element "h1" [] [Expr (field "name" blog)]] /\
    select (has_class "body") page
      = [Element "div" [("class", "body")] [SetHtml (field "body" blog)]] /\
    hrefs page = [base; base].
Proof.
  intro H. unfold blog_slug_astro.
  rewrite (get_object blog "name" H), (get_object blog "body" H). simpl.
  eexists. split; [reflexivity|]. repeat split.
Qed.

(** ** Item records (fetchBlog) *)

(** C1, as stated, fails: the item document of [post_without_body] is an
    object without [body]; fetchBlog returns it as it is, not a format
    error, and the detail page is generated. *)
Lemma fetchBlog_accepts_missing_body :
  run (fetchBlog Example.post_without_body (VStr "hello"))
    = Return (VObj [("name", VStr "Hello"); ("slug", VStr "hello");
                    ("summary", VStr "About Hello")])
  /\ assoc "body" [("name", VStr "Hello"); ("slug", VStr "hello");
                   ("summary", VStr "About Hello")] = None
  /\ run (fetchBlog Example.post_without_body (VStr "hello")) <> Throw FormatError
  /\ exists page,
       run (blog_slug_pages Example.post_without_body)
         = Return [({| params_slug := VStr "hello";
                       props_blog := VObj [("name", VStr "Hello"); ("slug", VStr "hello");
                                           ("summary", VStr "About Hello")] |}, page)]
       /\ select (has_class "body") page
          = [Element "div" [("class", "body")] [SetHtml VUndefined]].
Proof.
  split; [reflexivity|]. split; [reflexivity|]. split; [discriminate|].
  eexists. split; reflexivity.
Qed.

(** C1, amended: when the response is successful and its body decodes to an
    object, fetchBlog returns that object, complete or not; with [body]
    missing the detail template still renders, its body being [undefined]. *)
Theorem fetchBlog_returns_body_unchecked
        (w : world) (slug : value) (url : string) (resp : response)
        (fields : list (string * value)) :
  getR2Url w ("blogs/" ++ ToString slug ++ ".json") = Return url ->
  outcome (upstream w url) = Responded resp ->
  ok resp = true ->
  body resp = Some (VObj fields) ->
  run (fetchBlog w slug) = Return (VObj fields) /\
  (assoc "body" fields = None ->
   exists page,
     blog_slug_astro (BASE_URL w) (VObj fields) = Return page /\
     select (has_class "body") page
       = [Element "div" [("class", "body")] [SetHtml VUndefined]]).
Proof.
  intros Hu Ho Hk Hb. split.
  - unfold run. rewrite fetchBlog_result. eapply get_json_ok; eauto.
  - intro Hmiss.
    destruct (blog_slug_astro_shows (BASE_URL w) (VObj fields) eq_refl)
      as (page & Hp & _ & _ & Hbody & _).
    exists page. split; [exact Hp|].
    rewrite Hbody. unfold field. simpl. now rewrite Hmiss.
Qed.

Lemma fetchBlog_returns_body_unchecked_witness :
  run (fetchBlog Example.post_without_body (VStr "hello"))
    = Return (VObj [("name", VStr "Hello"); ("slug", VStr "hello");
                    ("summary", VStr "About Hello")]).
Proof.
  apply (fetchBlog_returns_body_unchecked Example.post_without_body (VStr "hello")
           "https://cdn.example/content/497/blogs/hello.json"
           {| status := 200; statusText := "OK";
              body := Some (VObj [("name", VStr "Hello"); ("slug", VStr "hello");
                                  ("summary", VStr "About Hello")]) |}
           _ eq_refl eq_refl eq_refl eq_refl).
Defined.

(** C3, as stated, fails: the document stored under [hello] carries the slug
    [goodbye], and that is the slug of the record fetchBlog returns for
    [hello]. *)
Lemma fetchBlog_keeps_foreign_slug :
  run (fetchBlog Example.post_with_other_slug (VStr "hello"))
    = Return (Example.post "goodbye" "Hello")
  /\ get (Example.post "goodbye" "Hello") "slug" = Return (VStr "goodbye")
  /\ VStr "goodbye" <> VStr "hello".
Proof. split; [reflexivity|]. split; [reflexivity|discriminate]. Qed.

(** C3, amended: the record of a successful fetchBlog is the decoded document
    stored at [blogs/<slug>.json], unchanged; so its [slug] is the stored
    document's [slug], and equals the requested one exactly when the stored
    one does. *)
Theorem fetchBlog_returns_stored_document (w : world) (slug blog : value) :
  run (fetchBlog w slug) = Return blog ->
  exists url resp,
    getR2Url w ("blogs/" ++ ToString slug ++ ".json") = Return url /\
    outcome (upstream w url) = Responded resp /\
    ok resp = true /\
    body resp = Some blog /\
    (forall stored, body resp = Some stored ->
       (get blog "slug" = Return slug <-> get stored "slug" = Return slug)).
Proof.
  unfold run. rewrite fetchBlog_result. unfold get_json.
  destruct (getR2Url w _) as [url|e]; simpl; [|discriminate].
  destruct (outcome (upstream w url)) as [resp|] eqn:Ho; [|discriminate].
  destruct (ok resp) eqn:Hk; [|discriminate].
  destruct (body resp) as [v|] eqn:Hb; [|discriminate].
  intro H. inversion H; subst v.
  exists url, resp. repeat split; auto; intros; congruence.
Qed.

Lemma fetchBlog_returns_stored_document_witness :
  exists url resp,
    outcome (upstream Example.two_posts url) = Responded resp /\
    body resp = Some (Example.post "hello" "Hello").
Proof.
  destruct (fetchBlog_returns_stored_document Example.two_posts (VStr "hello")
              (Example.post "hello" "Hello") eq_refl)
    as (url & resp & _ & Ho & _ & Hb & _).
  exists url, resp. split; assumption.
Defined.

(** ** Mapping a function that may throw *)

Lemma map_throwing_Return {A B} (f : A -> result B) (l : list A) (ys : list B) :
  map_throwing f l = Return ys <-> Forall2 (fun x y => f x = Return y) l ys.
Proof.
  revert ys. induction l as [|x l IH]; intros ys; simpl.
  - split; intro H.
    + inversion H. constructor.
    + inversion H. reflexivity.
  - destruct (f x) as [y|e] eqn:E; simpl.
    + destruct (map_throwing f l) as [ys'|e] eqn:E'; simpl; split; intro H.
      * inversion H; subst. constructor; [assumption|]. now apply IH.
      * inversion H; subst. apply IH in H4. congruence.
      * discriminate.
      * inversion H; subst. apply IH in H4. discriminate.
    + split; intro H; [discriminate|]. inversion H; subst. congruence.
Qed.

Lemma Forall2_map_Return {A B} (f : A -> result B) (l : list A) (ys : list B) :
  Forall2 (fun x y => f x = Return y) l ys <-> map f l = map Return ys.
Proof.
  revert ys. induction l as [|x l IH]; intros [|y ys]; simpl; split; intro H;
    try (inversion H; fail); try reflexivity; try constructor.
  - inversion H; subst. f_equal; [assumption|]. now apply IH.
  - now inversion H.
  - apply IH. now inversion H.
Qed.

Lemma Forall2_total {A B} (P : A -> B -> Prop) (l : list A) :
  (forall x, In x l -> exists y, P x y) -> exists ys, Forall2 P l ys.
Proof.
  induction l as [|x l IH]; intro H.
  - exists []. constructor.
  - destruct (H x (or_introl eq_refl)) as [y Hy].
    destruct IH as [ys Hys]; [intros; apply H; now right|].
    exists (y :: ys). now constructor.
Qed.

Ltac weaken_Forall2 H :=
  eapply Forall2_impl; [|exact H];
  let x := fresh in let y := fresh in let Hxy := fresh in
  intros x y Hxy; cbv beta in Hxy |- *; tauto.

(** ** Detail pages *)

Lemma item_available_path (w : world) (indexEntry : value) :
  item_available w indexEntry = true ->
  exists p,
    static_path_of w indexEntry = Return p /\
    params_slug p = field "slug" indexEntry /\
    run (fetchBlog w (field "slug" indexEntry)) = Return (props_blog p) /\
    is_object (props_blog p) = true.
Proof.
  unfold item_available, static_path_of, field.
  destruct (get indexEntry "slug") as [slug|e]; simpl; [|discriminate].
  destruct (run (fetchBlog w slug)) as [b|e]; simpl; [|discriminate].
  intro H. eexists. repeat split; simpl; auto.
Qed.

(** What getStaticPaths returns when every item document is available, and
    what the template shows for each entry. *)
Lemma detail_pages_generated (w : world) (blogIndex : list value) :
  run (fetchAllBlogs w) = Return blogIndex ->
  forallb (item_available w) blogIndex = true ->
  exists paths,
    run (getStaticPaths w) = Return paths /\
    Forall2 (fun indexEntry p =>
               params_slug p = field "slug" indexEntry /\
               run (fetchBlog w (field "slug" indexEntry)) = Return (props_blog p))
            blogIndex paths /\
    Forall (fun p => exists page,
              blog_slug_astro (BASE_URL w) (props_blog p) = Return page /\
              shows_record (props_blog p) page /\
              hrefs page = [BASE_URL w; BASE_URL w]) paths.
Proof.
  intros Hidx Hav. rewrite forallb_forall in Hav.
  destruct (Forall2_total
              (fun e p => static_path_of w e = Return p /\
                          params_slug p = field "slug" e /\
                          run (fetchBlog w (field "slug" e)) = Return (props_blog p) /\
                          is_object (props_blog p) = true) blogIndex) as [paths Hpaths].
  { intros e He. apply item_available_path. now apply Hav. }
  exists paths. split; [|split].
  - apply (getStaticPaths_after_index w blogIndex Hidx).
    apply Forall2_map_Return. weaken_Forall2 Hpaths.
  - weaken_Forall2 Hpaths.
  - clear - Hpaths. induction Hpaths as [|e p l l' H _ IH]; constructor; [|exact IH].
    destruct H as (_ & _ & _ & Hobj).
    destruct (blog_slug_astro_shows (BASE_URL w) (props_blog p) Hobj)
      as (page & Hr & Ht & Hh & Hb & Hl).
    exists page. split; [exact Hr|]. split; [|exact Hl].
    split; [exact Ht|]. split; [|exact Hb]. rewrite Hh. simpl. auto.
Qed.

(** C4: once the index is in and every entry's item document can be fetched,
    getStaticPaths returns one entry per index entry, in index order, each
    with the index entry's slug as parameter and the record fetched for that
    slug as props: the slugs of the entries are the slugs of the index, as
    many and in the same order, each once when the index lists each once.
    The template, rendered with the props of an entry, shows the name and
    the body of that record. *)
Theorem one_detail_page_per_index_entry (w : world) (blogIndex : list value) :
  run (fetchAllBlogs w) = Return blogIndex ->
  forallb (item_available w) blogIndex = true ->
  exists paths,
    run (getStaticPaths w) = Return paths /\
    Forall2 (fun indexEntry p =>
               params_slug p = field "slug" indexEntry /\
               run (fetchBlog w (field "slug" indexEntry)) = Return (props_blog p))
            blogIndex paths /\
    length paths = length blogIndex /\
    map params_slug paths = map (field "slug") blogIndex /\
    (NoDup (map (field "slug") blogIndex) -> NoDup (map params_slug paths)) /\
    Forall (fun p => exists page,
              blog_slug_astro (BASE_URL w) (props_blog p) = Return page /\
              shows_record (props_blog p) page) paths.
Proof.
  intros Hidx Hav.
  destruct (detail_pages_generated w blogIndex Hidx Hav) as (paths & H1 & H2 & H3).
  assert (Hmap : map params_slug paths = map (field "slug") blogIndex).
  { clear - H2. induction H2; simpl; [reflexivity|]. f_equal; tauto. }
  exists paths. split; [exact H1|]. split; [exact H2|]. split; [|split; [exact Hmap|split]].
  - symmetry. exact (Forall2_length H2).
  - now rewrite Hmap.
  - eapply Forall_impl; [|exact H3]. intros p (page & Hr & Hs & _). eauto.
Qed.

Lemma one_detail_page_per_index_entry_witness :
  exists paths,
    run (getStaticPaths Example.two_posts) = Return paths /\
    map params_slug paths = [VStr "hello"; VStr "world"].
Proof.
  destruct (one_detail_page_per_index_entry Example.two_posts _ eq_refl eq_refl)
    as (paths & Hp & _ & _ & Hs & _).
  exists paths. split; [exact Hp|exact Hs].
Defined.

(** ** The listing page *)

(** A card is one article of class blog-card, holds no placeholder, and
    links twice to the item's address. *)
Lemma blog_card_shape (base : string) (blog : value) (card : html) :
  blog_card base blog = Return card ->
  select is_card card = [card] /\
  select is_no_posts card = [] /\
  hrefs card = [base ++ "/blog/" ++ ToString (field "slug" blog);
                base ++ "/blog/" ++ ToString (field "slug" blog)].
Proof.
  unfold blog_card, field.
  destruct (get blog "slug") as [slug|e]; simpl; [|discriminate].
  destruct (get blog "name") as [name|e]; simpl; [|discriminate].
  destruct (get blog "summary") as [summary|e]; simpl; [|discriminate].
  intro H. inversion H; subst. repeat split.
Qed.

Lemma blog_card_total (base : string) (blog : value) :
  is_return (get blog "slug") = true -> exists card, blog_card base blog = Return card.
Proof.
  intro H. unfold blog_card.
  rewrite !(get_slug_then_any blog _ H). simpl. eauto.
Qed.

Lemma cards_shape (base : string) (blogs : list value) (cards : list html) :
  Forall2 (fun blog card => blog_card base blog = Return card) blogs cards ->
  flat_map (select is_card) cards = cards /\
  flat_map (select is_no_posts) cards = [] /\
  flat_map hrefs cards
    = flat_map (fun blog => [base ++ "/blog/" ++ ToString (field "slug" blog);
                             base ++ "/blog/" ++ ToString (field "slug" blog)]) blogs.
Proof.
  induction 1 as [|blog card blogs cards Hc _ IH]; simpl; [auto|].
  destruct (blog_card_shape base blog card Hc) as (H1 & H2 & H3).
  destruct IH as (I1 & I2 & I3).
  rewrite H1, H2, H3, I1, I2, I3. auto.
Qed.

Lemma index_astro_result (w : world) :
  run (index_astro w) =
  rbind (run (fetchAllBlogs w)) (fun blogs =>
  rbind (map_throwing (blog_card (BASE_URL w)) blogs) (fun cards =>
  Return (document [Text "Blog"]
            [ Element "h1" [] [Text "Blog"] ]
            (Element "div" [("class", "blog-grid")] cards
             :: (if (length blogs =? 0)%nat then [no_posts] else []))))).
Proof.
  unfold run, index_astro. rewrite fst_bind.
  destruct (fetchAllBlogs w start) as [[blogs|e] s']; simpl; [|reflexivity].
  rewrite fst_bind. unfold sync.
  destruct (map_throwing _ blogs); reflexivity.
Qed.

Ltac read_listing :=
  unfold document, document_head; simpl; rewrite !select_each, ?app_nil_r; reflexivity.

Lemma listing_cards (cards tail : list html) :
  select is_card (document [Text "Blog"] [Element "h1" [] [Text "Blog"]]
                    (Element "div" [("class", "blog-grid")] cards :: tail))
  = (flat_map (select is_card) cards ++ flat_map (select is_card) tail)%list.
Proof. read_listing. Qed.

Lemma listing_placeholders (cards tail : list html) :
  select is_no_posts (document [Text "Blog"] [Element "h1" [] [Text "Blog"]]
                        (Element "div" [("class", "blog-grid")] cards :: tail))
  = (flat_map (select is_no_posts) cards ++ flat_map (select is_no_posts) tail)%list.
Proof. read_listing. Qed.




(** C5: for an index whose items are objects, the listing page renders; its
    cards are the renderings of the items, one each and in index order; there
    is no card exactly when there is no item, and the placeholder is on the
    page exactly then. *)
Theorem listing_renders_each_item (w : world) (blogs : list value) :
  run (fetchAllBlogs w) = Return blogs ->
  forallb is_object blogs = true ->
  exists page,
    run (index_astro w) = Return page /\
    Forall2 (fun blog card => blog_card (BASE_URL w) blog = Return card)
            blogs (select is_card page) /\
    length (select is_card page) = length blogs /\
    (select is_card page = [] <-> blogs = []) /\
    (select is_no_posts page = [no_posts] <-> blogs = []) /\
    (select is_no_posts page = [] <-> blogs <> []).
Proof.
  intros Hidx Hobj. rewrite forallb_forall in Hobj.
  destruct (Forall2_total (fun blog card => blog_card (BASE_URL w) blog = Return card) blogs)
    as [cards Hcards].
  { intros blog Hin. apply blog_card_total.
    specialize (Hobj blog Hin). destruct blog; try discriminate.
    simpl. destruct (assoc "slug" fields); reflexivity. }
  destruct (cards_shape _ _ _ Hcards) as (Hc & Hn & _).
  pose proof (Forall2_length Hcards) as Hlen.
  eexists. split.
  { rewrite index_astro_result, Hidx. simpl.
    apply map_throwing_Return in Hcards. rewrite Hcards. reflexivity. }
  rewrite listing_cards, listing_placeholders, Hc, Hn.
  destruct blogs as [|blog blogs]; simpl.
  - inversion Hcards; subst. simpl. repeat split; auto; intros; congruence.
  - rewrite app_nil_r. repeat split; auto; intros; try congruence; try discriminate.
    inversion Hcards; subst. discriminate.
Qed.

Lemma listing_renders_each_item_witness :
  exists page,
    run (index_astro Example.two_posts) = Return page /\
    length (select is_card page) = 2.
Proof.
  destruct (listing_renders_each_item Example.two_posts _ eq_refl eq_refl)
    as (page & Hp & _ & Hl & _).
  exists page. split; [exact Hp|exact Hl].
Defined.

(** ** Links *)





(** ** Categories *)

Lemma fetchAllCategories_after_index (w : world) (slugs : list value) :
  run (fetchCategoryIndex w) = Return (VArr slugs) ->
  forall categories,
    run (fetchAllCategories w) = Return categories <->
    Forall2 (fun slug category => run (fetchCategory w slug) = Return category)
            slugs categories.
Proof.
  unfold run at 1. intros Hidx categories.
  unfold run at 1. unfold fetchAllCategories. rewrite fst_bind.
  destruct (fetchCategoryIndex w start) as [[v|e] s']; simpl in Hidx; [|discriminate].
  inversion Hidx; subst v. clear Hidx.
  rewrite fst_bind.
  assert (Hblind : Forall state_blind (map (fun slug => fetchCategory w slug) slugs)).
  { apply Forall_forall. intros b Hb. apply in_map_iff in Hb as (slug & <- & _).
    apply fetchCategory_blind. }
  destruct (Promise_all_result _ s' Hblind) as [HR _].
  rewrite map_map in HR.
  rewrite Forall2_map_Return.
  destruct (Promise_all _ s') as [[vs|e] s'']; simpl in *.
  - split; intro H.
    + inversion H; subst. now apply HR.
    + apply HR in H. exact H.
  - split; intro H; [discriminate|]. apply HR in H. discriminate.
Qed.

(** C10: for the list of slugs that fetchCategoryIndex returns,
    fetchAllCategories returns a list exactly when every fetchCategory of a
    listed slug returns, and that list holds, position by position, the
    category fetched for the slug at the same position: one per slug, in the
    order of the category index. *)
Theorem fetchAllCategories_in_index_order (w : world) (slugs : list value) :
  run (fetchCategoryIndex w) = Return (VArr slugs) ->
  (forall categories,
     run (fetchAllCategories w) = Return categories <->
     Forall2 (fun slug category => run (fetchCategory w slug) = Return category)
             slugs categories) /\
  (forall categories,
     run (fetchAllCategories w) = Return categories ->
     length categories = length slugs) /\
  (forallb (fun slug => is_return (run (fetchCategory w slug))) slugs = true ->
   exists categories, run (fetchAllCategories w) = Return categories).
Proof.
  intro Hidx. pose proof (fetchAllCategories_after_index w slugs Hidx) as H.
  split; [exact H|]. split.
  - intros categories Hc. apply H in Hc. symmetry. exact (Forall2_length Hc).
  - intro Hall. rewrite forallb_forall in Hall.
    destruct (Forall2_total
                (fun slug category => run (fetchCategory w slug) = Return category) slugs)
      as [categories Hcs].
    { intros slug Hin. specialize (Hall slug Hin).
      destruct (run (fetchCategory w slug)) as [c|e]; [eauto|discriminate]. }
    exists categories. now apply H.
Qed.

Lemma fetchAllCategories_in_index_order_witness :
  exists categories,
    run (fetchAllCategories Example.two_categories) = Return categories /\
    length categories = 2.
Proof.
  destruct (fetchAllCategories_in_index_order Example.two_categories
              [VStr "news"; VStr "notes"] eq_refl) as (_ & Hlen & Hex).
  destruct (Hex eq_refl) as (categories & Hc).
  exists categories. split; [exact Hc|]. exact (Hlen categories Hc).
Defined.

(** * Further properties of the code *)

(** ** Addresses *)

(** getR2Url throws, and then the configuration error, exactly when the base
    is absent or empty.  For any other base the address is a prefix, one
    separator and the path, where the prefix is the base itself or the base
    without its last character, a separator. *)
Theorem getR2Url_characterised (w : world) (path : string) :
  (forall e, getR2Url w path = Throw e ->
     e = ConfigurationError /\
     (PUBLIC_R2_BASE_URL w = None \/ PUBLIC_R2_BASE_URL w = Some "")) /\
  (forall base,
     PUBLIC_R2_BASE_URL w = Some base -> base <> "" ->
     exists prefix,
       getR2Url w path = Return (prefix ++ "/" ++ path) /\
       (base = prefix \/ base = prefix ++ "/")).
Proof.
  split.
  - intros e. unfold getR2Url, getR2BaseUrl.
    destruct (PUBLIC_R2_BASE_URL w) as [base|]; simpl.
    + destruct (base =? "") eqn:E; simpl; [|discriminate].
      apply String.eqb_eq in E. subst. intro H. inversion H. auto.
    + intro H. inversion H. auto.
  - intros base Hb Hne.
    assert (E : (base =? "") = false) by now apply String.eqb_neq.
    exists (replace_trailing_slash base). split.
    + now apply getR2Url_configured.
    + pose proof (replace_trailing_slash_split base) as H.
      destruct (ends_with_slash base); [now right|left].
      rewrite H at 1. clear. induction (replace_trailing_slash base); simpl; congruence.
Qed.

Lemma getR2Url_characterised_witness :
  exists prefix,
    getR2Url Example.two_posts "blogs/_index.json"
      = Return (prefix ++ "/" ++ "blogs/_index.json") /\
    ("https://cdn.example/content/497/" = prefix \/
     "https://cdn.example/content/497/" = prefix ++ "/").
Proof.
  destruct (getR2Url_characterised Example.two_posts "blogs/_index.json") as [_ H].
  apply (H "https://cdn.example/content/497/" eq_refl). discriminate.
Defined.

(** ** Requests *)

Ltac settle :=
  repeat (simpl;
          match goal with
          | |- context [match outcome ?r with _ => _ end] => destruct (outcome r)
          | |- context [if ok ?r then _ else _] => destruct (ok r)
          | |- context [if negb ?c then _ else _] => destruct c
          | |- context [match body ?r with _ => _ end] => destruct (body r)
          | |- context [if truthy ?v then _ else _] => destruct (truthy v)
          | |- context [match get ?v ?k with _ => _ end] => destruct (get v k)
          | |- context [if ?a && ?b then _ else _] => destruct (a && b)
          end);
  simpl; try reflexivity.

Lemma fetchAllBlogs_effect (w : world) (url : string) (s : state) :
  getR2Url w "blogs/_index.json" = Return url ->
  requests (snd (fetchAllBlogs w s)) = (requests s ++ [url])%list.
Proof.
  intro H. unfold fetchAllBlogs, bind, sync, fetch, json, ret, throw. rewrite H. settle.
Qed.

Lemma fetchBlog_effect (w : world) (slug : value) (url : string) (s : state) :
  getR2Url w ("blogs/" ++ ToString slug ++ ".json") = Return url ->
  requests (snd (fetchBlog w slug s)) = (requests s ++ [url])%list.
Proof.
  intro H. unfold fetchBlog, bind, sync, fetch, json, ret, throw. rewrite H. settle.
Qed.

Lemma fetchCategoryIndex_effect (w : world) (url : string) (s : state) :
  getR2Url w "categories/_index.json" = Return url ->
  requests (snd (fetchCategoryIndex w s)) = (requests s ++ [url])%list.
Proof.
  intro H. unfold fetchCategoryIndex, bind, sync, fetch, json, ret, throw. rewrite H. settle.
Qed.

Lemma fetchCategory_effect (w : world) (slug : value) (url : string) (s : state) :
  getR2Url w ("categories/" ++ ToString slug ++ ".json") = Return url ->
  requests (snd (fetchCategory w slug s)) = (requests s ++ [url])%list.
Proof.
  intro H. unfold fetchCategory, bind, sync, fetch, json, ret, throw. rewrite H. settle.
Qed.

Lemma one_request_effects (w : world) (base : string) :
  PUBLIC_R2_BASE_URL w = Some base ->
  (base =? "") = false ->
  (forall s, requests (snd (fetchAllBlogs w s))
             = (requests s ++ [(replace_trailing_slash base ++ "/blogs/_index.json")%string])%list) /\
  (forall slug s,
     requests (snd (fetchBlog w slug s))
     = (requests s
          ++ [(replace_trailing_slash base ++ "/blogs/" ++ ToString slug ++ ".json")%string])%list).
Proof.
  intros Hb Hne. split; intros.
  - apply fetchAllBlogs_effect. now rewrite (getR2Url_configured w base _ Hb Hne).
  - apply fetchBlog_effect. now rewrite (getR2Url_configured w base _ Hb Hne).
Qed.

(** With a base configured, every call of a one-document helper issues
    exactly one request, to the stripped base followed by the document's
    path, whatever the reply: a success, an error status, a body that is not
    JSON or no reply at all. *)
Theorem one_request_per_call (w : world) (base : string) (s : state) :
  PUBLIC_R2_BASE_URL w = Some base ->
  (base =? "") = false ->
  requests (snd (fetchAllBlogs w s))
    = (requests s ++ [(replace_trailing_slash base ++ "/blogs/_index.json")%string])%list /\
  (forall slug,
     requests (snd (fetchBlog w slug s))
     = (requests s
          ++ [(replace_trailing_slash base ++ "/blogs/" ++ ToString slug ++ ".json")%string])%list) /\
  requests (snd (fetchCategoryIndex w s))
    = (requests s ++ [(replace_trailing_slash base ++ "/categories/_index.json")%string])%list /\
  (forall slug,
     requests (snd (fetchCategory w slug s))
     = (requests s
          ++ [(replace_trailing_slash base ++ "/categories/" ++ ToString slug ++ ".json")%string])%list).
Proof.
  intros Hb Hne. repeat split; intros.
  - apply fetchAllBlogs_effect. now rewrite (getR2Url_configured w base _ Hb Hne).
  - apply fetchBlog_effect. now rewrite (getR2Url_configured w base _ Hb Hne).
  - apply fetchCategoryIndex_effect. now rewrite (getR2Url_configured w base _ Hb Hne).
  - apply fetchCategory_effect. now rewrite (getR2Url_configured w base _ Hb Hne).
Qed.

Lemma one_request_per_call_witness :
  requested (fetchBlog Scenario.broken_replies (VStr "hello"))
    = ["https://cdn.example/content/497/blogs/hello.json"].
Proof.
  destruct (one_request_per_call Scenario.broken_replies
              "https://cdn.example/content/497" start eq_refl eq_refl) as (_ & H & _).
  exact (H (VStr "hello")).
Defined.

Lemma start_all_log {A} (bs : list (M A)) (rs : list (list string)) :
  Forall2 (fun b r => forall s, requests (snd (b s)) = (requests s ++ r)%list) bs rs ->
  forall t0 log, snd (start_all bs t0 log) = (log ++ concat rs)%list.
Proof.
  induction 1 as [|b r bs rs Hb _ IH]; intros t0 log; simpl.
  - now rewrite app_nil_r.
  - specialize (Hb {| clock := t0; requests := log |}).
    destruct (b _) as [res s1]. simpl in Hb.
    specialize (IH t0 (requests s1)).
    destruct (start_all bs t0 (requests s1)) as [results log']. simpl in *.
    now rewrite IH, Hb, app_assoc.
Qed.

Lemma Promise_all_log {A} (bs : list (M A)) (rs : list (list string)) (s : state) :
  Forall2 (fun b r => forall s, requests (snd (b s)) = (requests s ++ r)%list) bs rs ->
  requests (snd (Promise_all bs s)) = (requests s ++ concat rs)%list.
Proof.
  intro H. unfold Promise_all.
  pose proof (start_all_log bs rs H (clock s) (requests s)) as L.
  destruct (start_all bs (clock s) (requests s)) as [results log]. simpl in L. subst log.
  destruct (all_values results); [reflexivity|].
  destruct (first_rejection results) as [[e t]|]; reflexivity.
Qed.


Lemma snd_bind_ret {A} (m : M A) (s : state) :
  snd (bind m (fun a => ret a) s) = snd (m s).
Proof. unfold bind, ret. destruct (m s) as [[a|e] s']; reflexivity. Qed.

Lemma Forall2_map_both {A B C} (P : B -> C -> Prop) (f : A -> B) (g : A -> C) (l : list A) :
  (forall x, In x l -> P (f x) (g x)) -> Forall2 P (map f l) (map g l).
Proof.
  induction l as [|x l IH]; intro H; simpl; constructor.
  - apply H. now left.
  - apply IH. intros. apply H. now right.
Qed.

Lemma requests_of_pages (w : world) (base : string) (blogIndex : list value) :
  PUBLIC_R2_BASE_URL w = Some base ->
  (base =? "") = false ->
  run (fetchAllBlogs w) = Return blogIndex ->
  requested (getStaticPaths w)
    = (replace_trailing_slash base ++ "/blogs/_index.json")
        :: flat_map (fun indexEntry =>
                       match get indexEntry "slug" with
                       | Return slug =>
                           [replace_trailing_slash base ++ "/blogs/" ++ ToString slug ++ ".json"]
                       | Throw _ => []
                       end) blogIndex /\
  requested (index_astro w) = [replace_trailing_slash base ++ "/blogs/_index.json"].
Proof.
  intros Hb Hne Hidx.
  destruct (one_request_effects w base Hb Hne) as (Hindex & Hitem).
  unfold run in Hidx. unfold requested.
  pose proof (Hindex start) as Hlog. simpl in Hlog.
  split.
  - unfold getStaticPaths. unfold bind at 1.
    destruct (fetchAllBlogs w start) as [[idx|e] s']; simpl in Hidx, Hlog; [|discriminate].
    inversion Hidx; subst idx.
    rewrite snd_bind_ret.
    rewrite (Promise_all_log _
               (map (fun indexEntry =>
                       match get indexEntry "slug" with
                       | Return slug =>
                           [replace_trailing_slash base ++ "/blogs/" ++ ToString slug ++ ".json"]
                       | Throw _ => []
                       end) blogIndex)).
    + rewrite Hlog. simpl. f_equal. now rewrite flat_map_concat_map.
    + apply Forall2_map_both. intros entry _ s.
      unfold bind at 1. unfold sync.
      destruct (get entry "slug") as [slug|e]; [|simpl; now rewrite app_nil_r].
      etransitivity; [|apply (Hitem slug s)].
      cbv beta iota. unfold bind.
      destruct (fetchBlog w slug s) as [[b|e] s1]; reflexivity.
  - unfold index_astro. unfold bind at 1.
    destruct (fetchAllBlogs w start) as [[idx|e] s']; simpl in Hidx, Hlog; [|discriminate].
    unfold bind, sync, ret. destruct (map_throwing _ idx); simpl; exact Hlog.
Qed.





(** ** Outcomes of the helpers *)

(** fetchAllBlogs returns a list exactly when the index address answers with
    a success status and a body that decodes to an object whose [items] is
    that list: it never returns items taken from an error response or from
    any other shape. *)
Theorem fetchAllBlogs_returns_iff (w : world) (items : list value) :
  run (fetchAllBlogs w) = Return items <->
  exists url resp fields,
    getR2Url w "blogs/_index.json" = Return url /\
    outcome (upstream w url) = Responded resp /\
    ok resp = true /\
    body resp = Some (VObj fields) /\
    assoc "items" fields = Some (VArr items).
Proof.
  unfold run. rewrite fetchAllBlogs_result. unfold get_json. split.
  - destruct (getR2Url w "blogs/_index.json") as [url|e]; simpl; [|discriminate].
    destruct (outcome (upstream w url)) as [resp|] eqn:Ho; simpl; [|discriminate].
    destruct (ok resp) eqn:Hk; simpl; [|discriminate].
    destruct (body resp) as [data|] eqn:Hb; simpl; [|discriminate].
    rewrite index_shape.
    destruct data as [| | | | | |fields]; try discriminate.
    destruct (assoc "items" fields) as [[| | | | |l|]|] eqn:E; try discriminate.
    intro H. inversion H; subst. exists url, resp, fields. auto.
  - intros (url & resp & fields & Hu & Ho & Hk & Hb & E).
    rewrite Hu. simpl. rewrite Ho, Hk, Hb. simpl. now rewrite E.
Qed.

Lemma FetchError_blog_message (t : string) (resp : response) :
  FetchError ("blog " ++ dquote ++ t ++ dquote) resp
  = Error ("Failed to fetch blog " ++ dquote ++ t ++ dquote ++ ": "
             ++ show_N (status resp) ++ " " ++ statusText resp).
Proof. unfold FetchError. f_equal. rewrite !append_assoc_s. reflexivity. Qed.

Lemma fetchAllBlogs_returns_iff_witness :
  run (fetchAllBlogs Example.no_posts_yet) = Return [].
Proof.
  apply (proj2 (fetchAllBlogs_returns_iff Example.no_posts_yet [])).
  exists "https://cdn.example/content/497/blogs/_index.json".
  exists {| status := 200; statusText := "OK"; body := Some (Example.index_of []) |}.
  exists [("total_items", VNum "0"); ("items", VArr [])].
  repeat split.
Defined.

(** How a one-document helper fails once the address is built: no reply is a
    TypeError; an error status is the fetch error naming the document, the
    status and the status text, raised before the body is looked at; a
    success status with a body that is not JSON is a SyntaxError, not the
    format error. *)
Theorem helper_failure_kinds (w : world) (slug : value) (url : string) :
  getR2Url w ("blogs/" ++ ToString slug ++ ".json") = Return url ->
  (outcome (upstream w url) = NetworkFailure ->
     run (fetchBlog w slug) = Throw TypeError) /\
  (forall resp,
     outcome (upstream w url) = Responded resp -> ok resp = false ->
     run (fetchBlog w slug)
     = Throw (Error ("Failed to fetch blog " ++ dquote ++ ToString slug ++ dquote ++ ": "
                       ++ show_N (status resp) ++ " " ++ statusText resp))) /\
  (forall resp,
     outcome (upstream w url) = Responded resp -> ok resp = true -> body resp = None ->
     run (fetchBlog w slug) = Throw SyntaxError).
Proof.
  intro Hu. unfold run. rewrite fetchBlog_result. unfold get_json. rewrite Hu.
  unfold rbind. repeat split.
  - intros ->. reflexivity.
  - intros resp -> ->. simpl. f_equal. apply FetchError_blog_message.
  - intros resp -> -> ->. reflexivity.
Qed.

Lemma helper_failure_kinds_witness :
  run (fetchBlog Scenario.broken_replies (VStr "hello")) = Throw TypeError.
Proof.
  destruct (helper_failure_kinds Scenario.broken_replies (VStr "hello")
              "https://cdn.example/content/497/blogs/hello.json" eq_refl) as (H & _).
  exact (H eq_refl).
Defined.

(** ** Items and records that are not objects *)




Lemma get_total (v : value) (k : string) :
  v <> VNull -> v <> VUndefined -> is_return (get v k) = true.
Proof.
  intros H1 H2. destruct v; simpl; try reflexivity; try congruence.
  destruct (assoc k fields); reflexivity.
Qed.



(** Records that are not objects: fetchBlog returns whatever JSON value a
    successful reply decodes to; the detail template fails, with a TypeError,
    exactly when the record it is given is [null] (or [undefined]), and for
    every other record, object or not, it renders a page showing the record's
    [name] and [body], [undefined] where the record has none. *)
Theorem detail_pages_and_null_records (w : world) (base : string) (blog : value) :
  (forall slug url resp,
     getR2Url w ("blogs/" ++ ToString slug ++ ".json") = Return url ->
     outcome (upstream w url) = Responded resp ->
     ok resp = true ->
     body resp = Some blog ->
     run (fetchBlog w slug) = Return blog) /\
  (blog_slug_astro base blog = Throw TypeError <-> blog = VNull \/ blog = VUndefined) /\
  (blog <> VNull -> blog <> VUndefined ->
   exists page, blog_slug_astro base blog = Return page /\ shows_record blog page).
Proof.
  split; [|split].
  - intros slug url resp Hu Ho Hk Hb. unfold run. rewrite fetchBlog_result.
    eapply get_json_ok; eauto.
  - split.
    + destruct blog; auto; unfold blog_slug_astro; simpl;
        try discriminate.
      destruct (assoc "name" fields), (assoc "body" fields); discriminate.
    + intros [->| ->]; reflexivity.
  - intros H1 H2. unfold blog_slug_astro, shows_record, field.
    pose proof (get_total blog "name" H1 H2) as Hn.
    pose proof (get_total blog "body" H1 H2) as Hb.
    destruct (get blog "name") as [name|]; [|discriminate].
    destruct (get blog "body") as [body|]; [|discriminate].
    simpl. eexists. split; [reflexivity|]. repeat split. simpl. auto.
Qed.

Lemma detail_pages_and_null_records_witness :
  run (fetchBlog Scenario.null_post (VStr "hello")) = Return VNull /\
  blog_slug_astro "/my-blog" VNull = Throw TypeError.
Proof.
  destruct (detail_pages_and_null_records Scenario.null_post "/my-blog" VNull)
    as (Hf & Ht & _).
  split.
  - apply (Hf (VStr "hello") "https://cdn.example/content/497/blogs/hello.json"
              {| status := 200; statusText := "OK"; body := Some VNull |}
              eq_refl eq_refl eq_refl eq_refl).
  - apply Ht. now left.
Defined.

(** An index entry that is an object without [slug]: its card links to
    [<BASE_URL>/blog/undefined], and getStaticPaths requests the item
    document [blogs/undefined.json] for it. *)
Theorem entry_without_slug_is_undefined
        (w : world) (base : string) (blogIndex : list value)
        (fields : list (string * value)) :
  PUBLIC_R2_BASE_URL w = Some base ->
  (base =? "") = false ->
  run (fetchAllBlogs w) = Return blogIndex ->
  In (VObj fields) blogIndex ->
  assoc "slug" fields = None ->
  (exists card,
     blog_card (BASE_URL w) (VObj fields) = Return card /\
     hrefs card = [BASE_URL w ++ "/blog/undefined"; BASE_URL w ++ "/blog/undefined"]) /\
  In (replace_trailing_slash base ++ "/blogs/undefined.json")
     (requested (getStaticPaths w)).
Proof.
  intros Hb Hne Hidx Hin Hslug. split.
  - destruct (blog_card_total (BASE_URL w) (VObj fields)) as [card Hc].
    { simpl. now rewrite Hslug. }
    exists card. split; [exact Hc|].
    destruct (blog_card_shape _ _ _ Hc) as (_ & _ & Hh).
    rewrite Hh. unfold field. simpl. rewrite Hslug. reflexivity.
  - destruct (requests_of_pages w base blogIndex Hb Hne Hidx) as [Hreq _].
    rewrite Hreq. right. apply in_flat_map. exists (VObj fields).
    split; [assumption|]. simpl. rewrite Hslug. now left.
Qed.

Lemma entry_without_slug_is_undefined_witness :
  In "https://cdn.example/content/497/blogs/undefined.json"
     (requested (getStaticPaths Scenario.entry_without_slug)).
Proof.
  destruct (entry_without_slug_is_undefined Scenario.entry_without_slug
              "https://cdn.example/content/497" _
              [("name", VStr "Hello"); ("summary", VStr "About Hello")]
              eq_refl eq_refl eq_refl (or_introl eq_refl) eq_refl) as [_ H].
  exact H.
Defined.

(** ** The empty index *)

(** With an index that has no items, getStaticPaths returns no entry and no
    detail page is generated, while the listing page still renders, with
    the placeholder. *)
Theorem empty_index_no_detail_pages (w : world) :
  run (fetchAllBlogs w) = Return [] ->
  run (getStaticPaths w) = Return [] /\
  run (blog_slug_pages w) = Return [] /\
  exists page,
    run (index_astro w) = Return page /\
    select is_card page = [] /\
    select is_no_posts page = [no_posts].
Proof.
  intro Hidx.
  assert (Hp : run (getStaticPaths w) = Return []).
  { apply (getStaticPaths_after_index w [] Hidx). reflexivity. }
  split; [exact Hp|]. split.
  - rewrite blog_slug_pages_result, Hp. reflexivity.
  - rewrite index_astro_result, Hidx. simpl. eexists. split; [reflexivity|].
    split; reflexivity.
Qed.

Lemma empty_index_no_detail_pages_witness :
  run (blog_slug_pages Example.no_posts_yet) = Return [].
Proof.
  destruct (empty_index_no_detail_pages Example.no_posts_yet eq_refl) as (_ & H & _).
  exact H.
Defined.

(** ** Where a failure of getStaticPaths comes from *)

(** The error getStaticPaths fails with is never made up: it is the error of
    the index fetch, or, for some entry of the index, the TypeError of
    reading its [slug] or the error of fetchBlog for its slug. *)
Theorem getStaticPaths_error_origin (w : world) (e : exn) :
  run (getStaticPaths w) = Throw e ->
  run (fetchAllBlogs w) = Throw e \/
  exists blogIndex indexEntry,
    run (fetchAllBlogs w) = Return blogIndex /\
    In indexEntry blogIndex /\
    (get indexEntry "slug" = Throw e \/
     exists slug, get indexEntry "slug" = Return slug /\
                  run (fetchBlog w slug) = Throw e).
Proof.
  intro H. destruct (run (fetchAllBlogs w)) as [blogIndex|e0] eqn:Hidx.
  - right. destruct (getStaticPaths_after_index w blogIndex Hidx) as [_ HT].
    apply HT in H. apply in_map_iff in H as (entry & Hs & Hin).
    exists blogIndex, entry. split; [reflexivity|]. split; [assumption|].
    unfold static_path_of in Hs.
    destruct (get entry "slug") as [slug|e1]; simpl in Hs.
    + right. exists slug. split; [reflexivity|].
      destruct (run (fetchBlog w slug)) as [b|e2]; simpl in Hs; [discriminate|].
      congruence.
    + left. congruence.
  - left. rewrite (getStaticPaths_no_index w e0 Hidx) in H. congruence.
Qed.

Lemma getStaticPaths_error_origin_witness :
  exists blogIndex indexEntry,
    run (fetchAllBlogs Example.one_post_missing) = Return blogIndex /\
    In indexEntry blogIndex /\
    exists slug, get indexEntry "slug" = Return slug /\
                 run (fetchBlog Example.one_post_missing slug)
                 = Throw (Error ("Failed to fetch blog " ++ dquote ++ "world" ++ dquote
                                   ++ ": 404 Not Found")).
Proof.
  destruct (getStaticPaths_error_origin Example.one_post_missing _ eq_refl)
    as [H|(blogIndex & entry & Hidx & Hin & [H|H])].
  - discriminate.
  - exfalso. inversion Hidx; subst. simpl in Hin.
    destruct Hin as [<-|[<-|[]]]; discriminate.
  - exists blogIndex, entry. auto.
Defined.

(** ** Slugs and addresses *)

Lemma length_append (a b : string) :
  String.length (a ++ b) = (String.length a + String.length b)%nat.
Proof. induction a as [|c a IH]; simpl; [reflexivity|now rewrite IH]. Qed.

Lemma append_cancel_r (t x y : string) : x ++ t = y ++ t -> x = y.
Proof.
  revert y. induction x as [|c x IH]; intros [|c' y] H; simpl in H.
  - reflexivity.
  - exfalso. apply (f_equal String.length) in H. simpl in H.
    rewrite length_append in H. lia.
  - exfalso. apply (f_equal String.length) in H. simpl in H.
    rewrite length_append in H. lia.
  - inversion H. f_equal. auto.
Qed.

(** Two different string slugs never share an item address nor a link: with a
    base configured, fetchBlog requests the same address for two string
    slugs only if the slugs are equal, and two cards carry the same links
    only if their items' string slugs are equal. *)
Theorem distinct_slugs_distinct_addresses (w : world) (base s1 s2 : string) :
  PUBLIC_R2_BASE_URL w = Some base ->
  (base =? "") = false ->
  (requested (fetchBlog w (VStr s1)) = requested (fetchBlog w (VStr s2)) -> s1 = s2) /\
  (forall blog1 blog2 card1 card2,
     field "slug" blog1 = VStr s1 -> field "slug" blog2 = VStr s2 ->
     blog_card (BASE_URL w) blog1 = Return card1 ->
     blog_card (BASE_URL w) blog2 = Return card2 ->
     hrefs card1 = hrefs card2 -> s1 = s2).
Proof.
  intros Hb Hne. split.
  - destruct (one_request_effects w base Hb Hne) as [_ Hitem].
    unfold requested. rewrite !Hitem. simpl. intro H. inversion H as [H1].
    apply append_cancel_l in H1.
    change ("/blogs/" ++ s1 ++ ".json" = "/blogs/" ++ s2 ++ ".json") in H1.
    apply append_cancel_l in H1. now apply append_cancel_r in H1.
  - intros blog1 blog2 card1 card2 F1 F2 C1 C2 H.
    destruct (blog_card_shape _ _ _ C1) as (_ & _ & H1).
    destruct (blog_card_shape _ _ _ C2) as (_ & _ & H2).
    rewrite H1, H2, F1, F2 in H. simpl in H. inversion H as [[H3 H4]].
    apply append_cancel_l in H3.
    change ("/blog/" ++ s1 = "/blog/" ++ s2) in H3.
    now apply append_cancel_l in H3.
Qed.

Lemma distinct_slugs_distinct_addresses_witness :
  requested (fetchBlog Example.two_posts (VStr "hello"))
  <> requested (fetchBlog Example.two_posts (VStr "world")).
Proof.
  intro H.
  destruct (distinct_slugs_distinct_addresses Example.two_posts
              "https://cdn.example/content/497/" "hello" "world" eq_refl eq_refl)
    as [Hreq _].
  specialize (Hreq H). discriminate.
Defined.

(** ** The tutorial's category helper *)

(** The [fetchAllCategories] proposed in the tutorial never looks at the
    status: whatever the status, it returns the [items] field of the decoded
    body ([undefined] when the field is absent) and fails with a TypeError
    when the body is [null]; for the same reply with an error status the
    helper of r2.ts, fetchCategoryIndex, fails with the fetch error. *)
Theorem tutorial_fetchAllCategories_ignores_status
        (w : world) (url : string) (resp : response) (data : value) :
  getR2Url w "categories/_index.json" = Return url ->
  outcome (upstream w url) = Responded resp ->
  body resp = Some data ->
  run (Tutorial.fetchAllCategories w) = get data "items" /\
  (data = VNull -> run (Tutorial.fetchAllCategories w) = Throw TypeError) /\
  (forall fields, data = VObj fields -> assoc "items" fields = None ->
     run (Tutorial.fetchAllCategories w) = Return VUndefined) /\
  (ok resp = false ->
     run (fetchCategoryIndex w) = Throw (FetchError "category index" resp)).
Proof.
  intros Hu Ho Hb.
  assert (R : run (Tutorial.fetchAllCategories w) = get data "items").
  { unfold run, Tutorial.fetchAllCategories, bind, sync, fetch, json, ret.
    rewrite Hu. simpl. rewrite Ho. simpl. rewrite Hb. simpl.
    destruct (get data "items"); reflexivity. }
  split; [exact R|]. split; [|split].
  - intros ->. rewrite R. reflexivity.
  - intros fields -> E. rewrite R. simpl. now rewrite E.
  - intro Hk. unfold run. rewrite fetchCategoryIndex_result.
    eapply get_json_not_ok; eauto.
Qed.

Lemma tutorial_fetchAllCategories_ignores_status_witness :
  run (Tutorial.fetchAllCategories Scenario.categories_not_found_with_body)
    = Return (VArr [VStr "stale"]) /\
  run (fetchCategoryIndex Scenario.categories_not_found_with_body)
    = Throw (Error "Failed to fetch category index: 404 Not Found").
Proof.
  destruct (tutorial_fetchAllCategories_ignores_status
              Scenario.categories_not_found_with_body
              "https://cdn.example/content/497/categories/_index.json"
              {| status := 404; statusText := "Not Found";
                 body := Some (VObj [("items", VArr [VStr "stale"])]) |}
              (VObj [("items", VArr [VStr "stale"])])
              eq_refl eq_refl eq_refl) as (H1 & _ & _ & H2).
  split; [exact H1|exact (H2 eq_refl)].
Defined.

(** ** What the listing page depends on *)

(** The listing page reads nothing but the index: two worlds with the same
    configuration whose stores give the same reply at the index address
    yield the same listing page (or the same failure), however their item
    documents differ. *)
Theorem listing_depends_on_index_only (w w' : world) (url : string) :
  PUBLIC_R2_BASE_URL w' = PUBLIC_R2_BASE_URL w ->
  BASE_URL w' = BASE_URL w ->
  getR2Url w "blogs/_index.json" = Return url ->
  upstream w' url = upstream w url ->
  run (fetchAllBlogs w') = run (fetchAllBlogs w) /\
  run (index_astro w') = run (index_astro w).
Proof.
  intros Henv Hbase Hu Hup.
  assert (Hu' : getR2Url w' "blogs/_index.json" = Return url).
  { rewrite <- Hu. unfold getR2Url, getR2BaseUrl. now rewrite Henv. }
  assert (Hidx : run (fetchAllBlogs w') = run (fetchAllBlogs w)).
  { unfold run. rewrite !fetchAllBlogs_result. unfold get_json.
    rewrite Hu, Hu'. simpl. now rewrite Hup. }
  split; [exact Hidx|].
  now rewrite !index_astro_result, Hidx, Hbase.
Qed.

Lemma listing_depends_on_index_only_witness :
  run (index_astro Example.post_with_other_slug)
  = run (index_astro Example.post_without_body).
Proof.
  apply (listing_depends_on_index_only Example.post_without_body
           Example.post_with_other_slug
           "https://cdn.example/content/497/blogs/_index.json"
           eq_refl eq_refl eq_refl eq_refl).
Defined.
